(** * Image editor: a shallow embedding of [app.py] and [utils/image_processor.py]

    The Flask handlers are modelled as state-passing functions over the
    upload folder (a finite map from paths to file contents).  Pillow, the
    Python built-ins on floats and werkzeug's [secure_filename] are external
    to the repository: they are the operations of the classes [Python] and
    [Pillow], and every result below holds for all their instances.  One
    small instance ([flat_pillow], uniform grey images with a byte-counting
    codec) is used to run the handlers on concrete requests. *)

From Stdlib Require Import ZArith String Ascii List Lia.
From stdpp Require Import base option gmap strings list fin_maps pretty.
From Equations Require Import Equations.
Import ListNotations.

Local Open Scope string_scope.
Local Open Scope Z_scope.

(** ** Files *)

(** The upload folder: path ↦ content.  Only regular files are modelled. *)
Abbreviation files := (gmap string (list Byte.byte)).

(** A Python computation over the file system; [None] is a raised exception
    (caught by the handlers' [except Exception]); effects made before the
    exception stay. *)
Definition py (A : Type) : Type := files → option A * files.

#[export] Instance py_ret : MRet py := λ A a fs, (Some a, fs).
#[export] Instance py_bind : MBind py := λ A B f m fs,
  match m fs with
  | (Some a, fs') => f a fs'
  | (None, fs') => (None, fs')
  end.

(** A pure step that may raise. *)
Definition lift {A} (o : option A) : py A := λ fs, (o, fs).

(** [os.path.exists], [os.remove], [os.rename]. *)
Definition os_path_exists (p : string) : py bool :=
  λ fs, (Some (bool_decide (is_Some (fs !! p))), fs).

Definition os_remove (p : string) : py unit :=
  λ fs, match fs !! p with
        | Some _ => (Some (), delete p fs)
        | None => (None, fs)
        end.

Definition os_rename (old new : string) : py unit :=
  λ fs, match fs !! old with
        | Some b => (Some (), <[new := b]> (delete old fs))
        | None => (None, fs)
        end.

(** Reading a whole file, as [send_file] does. *)
Definition read_file (p : string) : py (list Byte.byte) :=
  λ fs, (fs !! p, fs).

(** An [if] statement without [else]. *)
Definition when (b : bool) (body : py unit) : py unit :=
  if b then body else mret ().

(** ** Strings *)

(** [str.lower] and [str.upper] on the ASCII letters, the only ones that
    occur in the extensions and format names the code compares with. *)
Definition ascii_lower (c : ascii) : ascii :=
  let n := N_of_ascii c in
  if ((65 <=? n) && (n <=? 90))%N then ascii_of_N (n + 32) else c.

Definition ascii_upper (c : ascii) : ascii :=
  let n := N_of_ascii c in
  if ((97 <=? n) && (n <=? 122))%N then ascii_of_N (n - 32) else c.

Fixpoint str_map (f : ascii → ascii) (s : string) : string :=
  match s with
  | EmptyString => EmptyString
  | String c r => String (f c) (str_map f r)
  end.

Definition str_lower : string → string := str_map ascii_lower.
Definition str_upper : string → string := str_map ascii_upper.

(** The split of [s] at its last ['.'], if it has one. *)
Fixpoint split_last_dot (s : string) : option (string * string) :=
  match s with
  | EmptyString => None
  | String c r =>
      match split_last_dot r with
      | Some (a, b) => Some (String c a, b)
      | None => if Ascii.eqb c "." then Some (EmptyString, r) else None
      end
  end.

(** [s.rsplit('.', 1)] *)
Definition rsplit_dot (s : string) : list string :=
  match split_last_dot s with
  | Some (a, b) => [a; b]
  | None => [s]
  end.

(** ['.' in s] *)
Definition has_dot (s : string) : bool :=
  bool_decide (is_Some (split_last_dot s)).

Fixpoint ends_with_slash (s : string) : bool :=
  match s with
  | EmptyString => false
  | String c EmptyString => Ascii.eqb c "/"
  | String _ r => ends_with_slash r
  end.

(** [b.startswith('/')] *)
Definition is_abs (b : string) : bool :=
  match b with
  | String "/" _ => true
  | _ => false
  end.

(** [os.path.join a b] (posixpath): an absolute [b] replaces [a]. *)
Definition os_path_join (a b : string) : string :=
  if is_abs b then b
  else if bool_decide (a = "") || ends_with_slash a then a ++ b
  else a ++ "/" ++ b.

Definition UPLOAD_FOLDER : string := "static/uploads".

Definition ALLOWED_EXTENSIONS : list string := ["png"; "jpg"; "jpeg"; "webp"].

(** [allowed_file] *)
Definition allowed_file (filename : string) : bool :=
  has_dot filename &&
  match rsplit_dot filename !! 1%nat with
  | Some ext => bool_decide (str_lower ext ∈ ALLOWED_EXTENSIONS)
  | None => false
  end.

(** ** Python values *)

(** What the code uses of Python and werkzeug beyond integers and strings.
    Floats are kept abstract: the code only converts them, compares them
    with [1.0] and hands them to Pillow. *)
Class Python := {
  float : Type;
  float_1 : float;                          (* the literal 1.0 *)
  float_eqb : float → float → bool;         (* == on floats *)
  float_truthy : float → bool;              (* bool(x) *)
  float_of_Z : Z → option float;            (* float(n), OverflowError *)
  float_of_str : string → option float;     (* float(s), ValueError *)
  int_of_float : float → option Z;          (* int(x), nan and inf raise *)
  int_of_str : string → option Z;           (* int(s), ValueError *)
  str_of_float : float → string;            (* str(x) *)
  round2_div : Z → Z → float;               (* round(n / d, 2) *)
  b64encode : list Byte.byte → string;      (* base64.b64encode(b).decode() *)
  secure_filename : string → string         (* werkzeug.utils *)
}.

Section Values.
Context `{Python}.

(** The scalar JSON values of a request body; [JNull] is also Python's
    [None], what [data.get] gives for a missing key. *)
Inductive jvalue :=
| JNull
| JBool (b : bool)
| JInt (n : Z)
| JFloat (x : float)
| JStr (s : string).

(** [data.get(key)] and [data.get(key, default)] *)
Definition get (data : gmap string jvalue) (key : string) : jvalue :=
  default JNull (data !! key).

Definition get_or (data : gmap string jvalue) (key : string) (d : jvalue) : jvalue :=
  default d (data !! key).

(** Truth value of a Python object. *)
Definition truthy (v : jvalue) : bool :=
  match v with
  | JNull => false
  | JBool b => b
  | JInt n => negb (n =? 0)
  | JFloat x => float_truthy x
  | JStr s => negb (bool_decide (s = ""))
  end.

(** [int(v)] *)
Definition py_int (v : jvalue) : option Z :=
  match v with
  | JNull => None
  | JBool b => Some (if b then 1 else 0)
  | JInt n => Some n
  | JFloat x => int_of_float x
  | JStr s => int_of_str s
  end.

(** [float(v)] *)
Definition py_float (v : jvalue) : option float :=
  match v with
  | JNull => None
  | JBool b => float_of_Z (if b then 1 else 0)
  | JInt n => float_of_Z n
  | JFloat x => Some x
  | JStr s => float_of_str s
  end.

(** [str(v)], as an f-string formats it. *)
Definition py_str (v : jvalue) : string :=
  match v with
  | JNull => "None"
  | JBool b => if b then "True" else "False"
  | JInt n => @pretty Z _ n
  | JFloat x => str_of_float x
  | JStr s => s
  end.

(** [os.path.join(app.config['UPLOAD_FOLDER'], v)]: a [TypeError] unless
    [v] is a string. *)
Definition upload_path (v : jvalue) : option string :=
  match v with
  | JStr s => Some (os_path_join UPLOAD_FOLDER s)
  | _ => None
  end.

(** [os.path.join(app.config['UPLOAD_FOLDER'], f"original_{v}")] *)
Definition original_path (v : jvalue) : string :=
  os_path_join UPLOAD_FOLDER ("original_" ++ py_str v).

End Values.

(** ** Pillow *)

(** Keyword arguments of [Image.save]. *)
Record save_args := {
  sa_format : string;
  sa_quality : option Z;
  sa_optimize : bool
}.

(** What [Image.save] did.  When it raises, [residue] maps the previous
    state of the target file ([None]: absent) to what the call leaves
    behind: Pillow opens the target for writing before it encodes. *)
Inductive save_result :=
| Saved (data : list Byte.byte)
| SaveError (residue : option (list Byte.byte) → option (list Byte.byte)).

Inductive enhancer := Brightness | Contrast | Color | Sharpness.

Class Pillow `{Python} := {
  image : Type;
  (* Image.open on the content of a file, pixel data included *)
  Image_open : list Byte.byte → option image;
  (* Image.new('RGB', size, (255, 255, 255)) *)
  Image_new_white : Z * Z → option image;
  img_mode : image → string;
  img_format : image → option string;
  img_width : image → Z;
  img_height : image → Z;
  (* img.convert(mode) *)
  img_convert : image → string → option image;
  (* img.split()[-1] *)
  img_last_band : image → option image;
  (* background.paste(img, mask=mask): the background afterwards *)
  img_paste : image → image → option image → option image;
  (* ImageEnhance.<enhancer>(img).enhance(factor) *)
  img_enhance : enhancer → image → float → option image;
  (* img.crop((left, top, right, bottom)) *)
  img_crop : image → Z * Z * Z * Z → option image;
  (* img.save(target, **args) *)
  img_save : image → save_args → save_result
}.

(** ** [utils/image_processor.py] *)

Section Processor.
Context `{Pillow}.

(** [img.save(buffered, ...)] into a fresh [io.BytesIO()]: the bytes written. *)
Definition save_to_buffer (img : image) (args : save_args) : option (list Byte.byte) :=
  match img_save img args with
  | Saved b => Some b
  | SaveError _ => None
  end.

(** [img.save(filepath, ...)] *)
Definition save_to_file (img : image) (filepath : string) (args : save_args) : py unit :=
  λ fs, match img_save img args with
        | Saved b => (Some (), <[filepath := b]> fs)
        | SaveError residue => (None, partial_alter residue filepath fs)
        end.

(** [Image.open(path)]; the file is read at once (Pillow defers the pixel
    data to the first use, which in every function below comes before any
    write). *)
Definition open_image (path : string) : py image :=
  λ fs, (fs !! path ≫= Image_open, fs).

Definition PNG_ARGS : save_args :=
  {| sa_format := "PNG"; sa_quality := None; sa_optimize := false |}.

(** [image_to_base64] *)
Definition image_to_base64 (img : image) : option string :=
  buffered ← save_to_buffer img PNG_ARGS;
  Some ("data:image/png;base64," ++ b64encode buffered).

Record image_info := {
  info_width : Z;
  info_height : Z;
  info_format : string;
  info_size_kb : float;
  info_size_mb : float
}.

(** [image.format or 'PNG'] *)
Definition format_or_png (img : image) : string :=
  match img_format img with
  | Some f => if bool_decide (f = "") then "PNG" else f
  | None => "PNG"
  end.

(** [get_image_info] *)
Definition get_image_info (img : image) : option image_info :=
  buffered ← save_to_buffer img
    {| sa_format := format_or_png img; sa_quality := None; sa_optimize := false |};
  let size_bytes := Z.of_nat (length buffered) in
  Some {| info_width := img_width img;
          info_height := img_height img;
          info_format := format_or_png img;
          info_size_kb := round2_div size_bytes 1024;
          info_size_mb := round2_div size_bytes (1024 * 1024) |}.

Definition ALPHA_MODES : list string := ["RGBA"; "LA"; "P"].

Definition mode_in (img : image) (modes : list string) : bool :=
  bool_decide (img_mode img ∈ modes).

(** The block that composes an image on a white background; the same five
    lines stand in [adjust_brightness], [compress_image], [save_image] and
    [preview_adjustments], under the test [img.mode in ('RGBA', 'LA', 'P')]. *)
Definition on_white (img : image) : option image :=
  background ← Image_new_white (img_width img, img_height img);
  img ← (if bool_decide (img_mode img = "P") then img_convert img "RGBA" else Some img);
  mask ← (if mode_in img ["RGBA"; "LA"] then Some <$> img_last_band img else Some None);
  img_paste background img mask.

Definition to_rgb (img : image) : option image :=
  if mode_in img ALPHA_MODES then on_white img else Some img.

(** [adjust_brightness] *)
Definition adjust_brightness (image_path : string) (brightness_factor : float) : py image :=
  img ← open_image image_path;
  img ← lift (to_rgb img);
  lift (img_enhance Brightness img brightness_factor).

Definition jpeg_args (quality : Z) : save_args :=
  {| sa_format := "JPEG"; sa_quality := Some quality; sa_optimize := true |}.

(** The [while current_quality > 10] loop of [compress_image].  The result
    is the value of [current_quality] when the loop is left ([None] when an
    encode raised); the list records, in order, the qualities at which an
    encode ran.  [size_kb <= max_size_kb] compares [tell() / 1024] with an
    integer, which is the comparison of the byte count with
    [1024 * max_size_kb] (the division by a power of two is exact). *)
Equations? quality_search (img : image) (max_size_kb : Z) (current_quality : Z)
  : list Z * option Z by wf (Z.to_nat (current_quality - 10)) lt :=
quality_search img max_size_kb current_quality with Z_lt_dec 10 current_quality => {
  | right _ := ([], Some current_quality);
  | left _ with save_to_buffer img (jpeg_args current_quality) => {
    | None := ([current_quality], None);
    | Some buffered with Z_le_dec (Z.of_nat (length buffered)) (1024 * max_size_kb) => {
      | left _ := ([current_quality], Some current_quality);
      | right _ with quality_search img max_size_kb (current_quality - 5) => {
        | (encodes, result) := (current_quality :: encodes, result) } } } }.
Proof. lia. Qed.

(** [compress_image]; [max_size_kb = None] is the default argument, and
    [if max_size_kb:] is also false at [0]. *)
Definition compress_image (image_path : string) (quality : Z) (max_size_kb : option Z)
  : py (image * Z) :=
  img ← open_image image_path;
  img ← lift (to_rgb img);
  match max_size_kb with
  | Some target =>
      if target =? 0 then mret (img, quality)
      else current_quality ← lift (snd (quality_search img target quality));
           mret (img, current_quality)
  | None => mret (img, quality)
  end.

(** Whether the JPEG of [img] at [quality] is at most [max_size_kb] KB. *)
Definition fits (img : image) (max_size_kb quality : Z) : bool :=
  match save_to_buffer img (jpeg_args quality) with
  | Some buffered => Z.of_nat (length buffered) <=? 1024 * max_size_kb
  | None => false
  end.

(** The crop box of [crop_image] after its two assignments. *)
Definition crop_box (img_w img_h x y width height : Z) : Z * Z * Z * Z :=
  let crop_box := (x, y, x + width, y + height) in
  let '(b0, b1, b2, b3) := crop_box in
  (Z.max 0 b0, Z.max 0 b1, Z.min img_w b2, Z.min img_h b3).

(** [crop_image] *)
Definition crop_image (image_path : string) (x y width height : Z) : py image :=
  img ← open_image image_path;
  lift (img_crop img (crop_box (img_width img) (img_height img) x y width height)).

(** The first block of [save_image]: "Ensure RGB mode for JPEG". *)
Definition rgb_for (format : string) (img : image) : option image :=
  if bool_decide (str_upper format = "JPEG") && mode_in img ALPHA_MODES
  then on_white img else Some img.

(** The dictionary [save_kwargs] that [save_image] builds. *)
Definition save_kwargs (format : string) (quality : Z) : save_args :=
  if bool_decide (str_upper format ∈ ["JPEG"; "WEBP"]) then
    {| sa_format := format; sa_quality := Some quality; sa_optimize := true |}
  else if bool_decide (str_upper format = "PNG") then
    {| sa_format := format; sa_quality := None; sa_optimize := true |}
  else
    {| sa_format := format; sa_quality := None; sa_optimize := false |}.

(** [save_image]; the defaults are [format='JPEG', quality=95]. *)
Definition save_image (img : image) (filepath : string) (format : string) (quality : Z)
  : py unit :=
  img ← lift (rgb_for format img);
  save_to_file img filepath (save_kwargs format quality).

Definition save_image_default (img : image) (filepath : string) : py unit :=
  save_image img filepath "JPEG" 95.

(** The keyword arguments that the defaults give to [Image.save]. *)
Definition JPEG_95 : save_args :=
  {| sa_format := "JPEG"; sa_quality := Some 95; sa_optimize := true |}.

End Processor.

(** ** [app.py] *)

Section App.
Context `{Pillow}.

(** The [error] field of an error reply: a fixed message, or [str(e)] of a
    caught exception. *)
Inductive error_text := Msg (s : string) | ExceptionText.

Inductive json_body :=
| UploadBody (filename preview : string) (info : image_info)
| EditBody (preview : string) (info : image_info)
| CompressBody (preview : string) (info : image_info)
    (qualityUsed : Z) (newFilename format : string)
| SuccessBody.

Inductive reply :=
| Json200 (body : json_body)
| SendFile (data : list Byte.byte) (download_name : string)
| JsonError (status : Z) (error : error_text).

(** [try: ... except Exception as e: return jsonify({'error': str(e)}), 500] *)
Definition handler (body : py reply) : files → reply * files :=
  λ fs, match body fs with
        | (Some r, fs') => (r, fs')
        | (None, fs') => (JsonError 500 ExceptionText, fs')
        end.

(** An uploaded file: werkzeug's [FileStorage] over its stream. *)
Record FileStorage := {
  fs_filename : string;
  stream : list Byte.byte;
  position : nat
}.

(** [file.save(dst)] copies the stream from its position to its end. *)
Definition file_save (file : FileStorage) (dst : string) : py FileStorage :=
  λ fs, (Some {| fs_filename := fs_filename file; stream := stream file;
                 position := Nat.max (position file) (length (stream file)) |},
         <[dst := drop (position file) (stream file)]> fs).

(** [file.seek(pos)] *)
Definition file_seek (file : FileStorage) (pos : nat) : FileStorage :=
  {| fs_filename := fs_filename file; stream := stream file; position := pos |}.

(** [upload_image]; [file] is [request.files.get('image')] and [uuid4] the
    text of the identifier drawn by [uuid.uuid4()]. *)
Definition upload_image (file : option FileStorage) (uuid4 : string) : files → reply * files :=
  handler (
    match file with
    | None => mret (JsonError 400 (Msg "No file uploaded"))
    | Some file =>
        if bool_decide (fs_filename file = "") then
          mret (JsonError 400 (Msg "No file selected"))
        else if negb (allowed_file (fs_filename file)) then
          mret (JsonError 400 (Msg "Invalid file type. Allowed: JPG, PNG, WEBP"))
        else
          let original_filename := secure_filename (fs_filename file) in
          file_ext ← lift (str_lower <$> rsplit_dot original_filename !! 1%nat);
          let unique_filename := uuid4 ++ "." ++ file_ext in
          let filepath := os_path_join UPLOAD_FOLDER unique_filename in
          file ← file_save file filepath;
          let original_filepath :=
            os_path_join UPLOAD_FOLDER ("original_" ++ unique_filename) in
          let file := file_seek file 0 in
          _ ← file_save file original_filepath;
          img ← open_image filepath;
          img_info ← lift (get_image_info img);
          preview ← lift (image_to_base64 img);
          mret (Json200 (UploadBody unique_filename preview img_info))
    end).

(** The three lines repeated for each slider of [preview_adjustments]:
    read the multiplier, and enhance unless it is [1.0]. *)
Definition slider (e : enhancer) (key : string) (data : gmap string jvalue)
    (img : image) : option image :=
  factor ← py_float (get_or data key (JFloat float_1));
  if negb (float_eqb factor float_1) then img_enhance e img factor else Some img.

(** [preview_adjustments]; [json] is [request.json], [None] when the body
    is not a JSON object. *)
Definition preview_adjustments (json : option (gmap string jvalue)) : files → reply * files :=
  handler (
    data ← lift json;
    let filename := get data "filename" in
    if negb (truthy filename) then mret (JsonError 400 (Msg "Filename required"))
    else
      let original_filepath := original_path filename in
      found ← os_path_exists original_filepath;
      if negb found then mret (JsonError 404 (Msg "Original file not found"))
      else
        img ← open_image original_filepath;
        img ← lift (to_rgb img);
        img ← lift (slider Brightness "brightness" data img);
        img ← lift (slider Contrast "contrast" data img);
        img ← lift (slider Color "saturation" data img);
        img ← lift (slider Sharpness "sharpness" data img);
        img_info ← lift (get_image_info img);
        filepath ← lift (upload_path filename);
        _ ← save_image_default img filepath;
        preview ← lift (image_to_base64 img);
        mret (Json200 (EditBody preview img_info))).

(** [brightness], the handler of [/adjust-brightness] *)
Definition brightness (json : option (gmap string jvalue)) : files → reply * files :=
  handler (
    data ← lift json;
    let filename := get data "filename" in
    brightness_factor ← lift (py_float (get_or data "brightness" (JFloat float_1)));
    if negb (truthy filename) then mret (JsonError 400 (Msg "Filename required"))
    else
      filepath ← lift (upload_path filename);
      found ← os_path_exists filepath;
      if negb found then mret (JsonError 404 (Msg "File not found"))
      else
        adjusted_img ← adjust_brightness filepath brightness_factor;
        img_info ← lift (get_image_info adjusted_img);
        _ ← save_image_default adjusted_img filepath;
        preview ← lift (image_to_base64 adjusted_img);
        mret (Json200 (EditBody preview img_info))).

(** [v.upper()], an [AttributeError] unless [v] is a string. *)
Definition upper_of (v : jvalue) : option string :=
  match v with
  | JStr s => Some (str_upper s)
  | _ => None
  end.

Definition as_str (v : jvalue) : option string :=
  match v with
  | JStr s => Some s
  | _ => None
  end.

(** [format_to_ext.get(output_format, 'jpg')] *)
Definition format_to_ext (output_format : string) : string :=
  if bool_decide (output_format = "JPEG") then "jpg"
  else if bool_decide (output_format = "PNG") then "png"
  else if bool_decide (output_format = "WEBP") then "webp"
  else "jpg".

(** [compress] *)
Definition compress (json : option (gmap string jvalue)) : files → reply * files :=
  handler (
    data ← lift json;
    let filename := get data "filename" in
    quality ← lift (py_int (get_or data "quality" (JInt 85)));
    let max_size_kb := get data "maxSizeKB" in
    output_format ← lift (upper_of (get_or data "outputFormat" (JStr "JPEG")));
    if negb (truthy filename) then mret (JsonError 400 (Msg "Filename required"))
    else
      filepath ← lift (upload_path filename);
      found ← os_path_exists filepath;
      if negb found then mret (JsonError 404 (Msg "File not found"))
      else
        '(compressed_img, quality_used) ←
          (if truthy max_size_kb then
             target ← lift (py_int max_size_kb);
             compress_image filepath quality (Some target)
           else compress_image filepath quality None);
        name ← lift (as_str filename);
        name_without_ext ← lift (rsplit_dot name !! 0%nat);
        let new_ext := format_to_ext output_format in
        let new_filename := name_without_ext ++ "." ++ new_ext in
        let new_filepath := os_path_join UPLOAD_FOLDER new_filename in
        _ ← save_image compressed_img new_filepath output_format quality_used;
        _ ← when (bool_decide (new_filename ≠ name)) (
               found ← os_path_exists filepath;
               _ ← when found (os_remove filepath);
               let old_original := original_path filename in
               let new_original := original_path (JStr new_filename) in
               found ← os_path_exists old_original;
               when found (os_rename old_original new_original));
        img_info ← lift (get_image_info compressed_img);
        preview ← lift (image_to_base64 compressed_img);
        mret (Json200 (CompressBody preview img_info quality_used new_filename output_format))).

(** [crop] *)
Definition crop (json : option (gmap string jvalue)) : files → reply * files :=
  handler (
    data ← lift json;
    let filename := get data "filename" in
    x ← lift (py_int (get_or data "x" (JInt 0)));
    y ← lift (py_int (get_or data "y" (JInt 0)));
    width ← lift (py_int (get data "width"));
    height ← lift (py_int (get data "height"));
    if negb (truthy filename) then mret (JsonError 400 (Msg "Filename required"))
    else if (width =? 0) || (height =? 0) then
      mret (JsonError 400 (Msg "Width and height required"))
    else
      filepath ← lift (upload_path filename);
      found ← os_path_exists filepath;
      if negb found then mret (JsonError 404 (Msg "File not found"))
      else
        cropped_img ← crop_image filepath x y width height;
        _ ← save_image_default cropped_img filepath;
        img_info ← lift (get_image_info cropped_img);
        preview ← lift (image_to_base64 cropped_img);
        mret (Json200 (EditBody preview img_info))).

(** [download]; [os.path.abspath] names the same file as the relative path. *)
Definition download (filename : string) : files → reply * files :=
  handler (
    let filepath := os_path_join UPLOAD_FOLDER filename in
    let abs_filepath := filepath in
    found ← os_path_exists abs_filepath;
    if negb found then mret (JsonError 404 (Msg "File not found"))
    else
      data ← read_file abs_filepath;
      mret (SendFile data ("edited_" ++ filename))).

(** [reset] *)
Definition reset (filename : string) : files → reply * files :=
  handler (
    let filepath := os_path_join UPLOAD_FOLDER filename in
    let original_filepath := os_path_join UPLOAD_FOLDER ("original_" ++ filename) in
    found ← os_path_exists filepath;
    _ ← when found (os_remove filepath);
    found ← os_path_exists original_filepath;
    _ ← when found (os_remove original_filepath);
    mret (Json200 SuccessBody)).

(** A JSON object given by its fields. *)
Definition request (fields : list (string * jvalue)) : option (gmap string jvalue) :=
  Some (list_to_map fields).

(** *** What the adjustment handlers derive from a file

    [adjusted data original] is the image, with its metadata, that
    [preview_adjustments] builds from the bytes of the Original, and
    [brightened factor current] the one that [brightness] builds from the
    bytes of the Current; they are the handlers' own steps between the read
    and the write. *)

Definition adjusted (data : gmap string jvalue) (original : list Byte.byte)
  : option (image * image_info) :=
  img ← Image_open original;
  img ← to_rgb img;
  img ← slider Brightness "brightness" data img;
  img ← slider Contrast "contrast" data img;
  img ← slider Color "saturation" data img;
  img ← slider Sharpness "sharpness" data img;
  img_info ← get_image_info img;
  Some (img, img_info).

Definition brightened (factor : float) (current : list Byte.byte)
  : option (image * image_info) :=
  img ← Image_open current;
  img ← to_rgb img;
  img ← img_enhance Brightness img factor;
  img_info ← get_image_info img;
  Some (img, img_info).

End App.

(** ** A small instance: uniform grey images

    An image of one grey level is an image; on such images brightness
    scales the level and the other three enhancers change nothing.  The
    codec writes a five-byte header (format, mode, width, height, level)
    and, for the lossy formats, a body that grows with the area and the
    quality.  Multipliers are counted in hundredths. *)

Module Flat.

Definition digit_of (c : ascii) : option Z :=
  let n := Z.of_N (N_of_ascii c) in
  if (48 <=? n) && (n <=? 57) then Some (n - 48) else None.

Fixpoint digits (acc : Z) (s : string) : option Z :=
  match s with
  | EmptyString => Some acc
  | String c r => d ← digit_of c; digits (10 * acc + d) r
  end.

Definition int_of_digits (s : string) : option Z :=
  if bool_decide (s = "") then None else digits 0 s.

Definition hex_digit (n : N) : ascii :=
  ascii_of_N (if (n <? 10)%N then 48 + n else 87 + n)%N.

Definition hex (bs : list Byte.byte) : string :=
  foldr (λ b s, let n := Byte.to_N b in
                String (hex_digit (n / 16)) (String (hex_digit (n mod 16)) s))
        EmptyString bs.

#[export] Instance flat_python : Python := {|
  float := Z;
  float_1 := 100;
  float_eqb := Z.eqb;
  float_truthy := λ x, negb (x =? 0);
  float_of_Z := λ n, Some (100 * n);
  float_of_str := λ s, Z.mul 100 <$> int_of_digits s;
  int_of_float := λ x, Some (Z.quot x 100);
  int_of_str := int_of_digits;
  str_of_float := λ x, @pretty Z _ (Z.quot x 100) ++ "." ++ @pretty Z _ (Z.abs (Z.rem x 100));
  round2_div := λ n d, 100 * n / d;
  b64encode := hex;
  secure_filename := λ s, s
|}.

Record flat_image := {
  fmode : string;
  fformat : option string;
  fwidth : Z;
  fheight : Z;
  level : Z
}.

Definition byte_of_Z (z : Z) : option Byte.byte :=
  if (0 <=? z) && (z <? 256) then Byte.of_N (Z.to_N z) else None.

Definition Z_of_byte (b : Byte.byte) : Z := Z.of_N (Byte.to_N b).

Definition MODES : list string := ["RGB"; "RGBA"; "L"; "LA"; "P"].
Definition FORMATS : list string := ["JPEG"; "PNG"; "WEBP"].

Fixpoint index_of (s : string) (l : list string) : option Z :=
  match l with
  | [] => None
  | x :: r => if bool_decide (x = s) then Some 0 else Z.succ <$> index_of s r
  end.

(** A failed encode leaves an existing target empty and no new file. *)
Definition truncated : save_result := SaveError (λ old, old ≫= λ _, Some []).

(** An unknown format is refused before the target is opened. *)
Definition refused : save_result := SaveError (λ old, old).

Definition encode (img : flat_image) (format : string) (body : Z) : save_result :=
  match index_of format FORMATS ≫= byte_of_Z,
        index_of (fmode img) MODES ≫= byte_of_Z,
        byte_of_Z (fwidth img), byte_of_Z (fheight img), byte_of_Z (level img) with
  | Some f, Some m, Some w, Some h, Some l =>
      if (0 <? fwidth img) && (0 <? fheight img)
      then Saved ([f; m; w; h; l] ++ repeat Byte.x00 (Z.to_nat body))
      else truncated
  | _, _, _, _, _ => truncated
  end.

Definition lossy_body (img : flat_image) (quality : option Z) : Z :=
  let q := Z.max 1 (Z.min 100 (default 75 quality)) in
  fwidth img * fheight img * (q + 20) / 64.

Definition flat_save (img : flat_image) (args : save_args) : save_result :=
  let format := str_upper (sa_format args) in
  if bool_decide (format = "JPEG") then
    if bool_decide (fmode img ∈ ["RGB"; "L"])
    then encode img format (lossy_body img (sa_quality args))
    else truncated
  else if bool_decide (format = "WEBP") then
    encode img format (lossy_body img (sa_quality args))
  else if bool_decide (format = "PNG") then encode img format 0
  else refused.

Definition flat_open (bs : list Byte.byte) : option flat_image :=
  match bs with
  | f :: m :: w :: h :: l :: _ =>
      format ← FORMATS !! Z.to_nat (Z_of_byte f);
      mode ← MODES !! Z.to_nat (Z_of_byte m);
      Some {| fmode := mode; fformat := Some format; fwidth := Z_of_byte w;
              fheight := Z_of_byte h; level := Z_of_byte l |}
  | _ => None
  end.

Definition derived (img : flat_image) (mode : string) (w h l : Z) : flat_image :=
  {| fmode := mode; fformat := None; fwidth := w; fheight := h; level := l |}.

Definition flat_enhance (e : enhancer) (img : flat_image) (factor : Z) : option flat_image :=
  match e with
  | Brightness =>
      Some (derived img (fmode img) (fwidth img) (fheight img)
              (Z.max 0 (Z.min 255 (level img * factor / 100))))
  | _ => Some (derived img (fmode img) (fwidth img) (fheight img) (level img))
  end.

(** Pillow refuses a box whose right or lower edge comes before its left or
    upper edge. *)
Definition flat_crop (img : flat_image) (box : Z * Z * Z * Z) : option flat_image :=
  let '(x0, y0, x1, y1) := box in
  if (x1 <? x0) || (y1 <? y0) then None
  else Some (derived img (fmode img) (x1 - x0) (y1 - y0) (level img)).

#[export] Instance flat_pillow : Pillow := {|
  image := flat_image;
  Image_open := flat_open;
  Image_new_white := λ '(w, h), Some (derived (Build_flat_image "" None 0 0 0) "RGB" w h 255);
  img_mode := fmode;
  img_format := fformat;
  img_width := fwidth;
  img_height := fheight;
  img_convert := λ img mode,
    Some (derived img mode (fwidth img) (fheight img) (level img));
  img_last_band := λ img, Some (derived img "L" (fwidth img) (fheight img) 255);
  img_paste := λ background img mask,
    Some (derived background (fmode background) (fwidth background)
            (fheight background) (level img));
  img_enhance := flat_enhance;
  img_crop := flat_crop;
  img_save := flat_save
|}.

(** The content of an image file of the given format and mode. *)
Definition file_of (format mode : string) (w h l : Z) : list Byte.byte :=
  match flat_save {| fmode := mode; fformat := None; fwidth := w; fheight := h; level := l |}
          {| sa_format := format; sa_quality := Some 90; sa_optimize := false |} with
  | Saved b => b
  | SaveError _ => []
  end.

(** A session on disk: a 6×5 image of level 200, uploaded as [a.png]. *)
Definition thumb : list Byte.byte := file_of "PNG" "RGB" 6 5 200.

Definition disk : files :=
  {[ "static/uploads/a.png" := thumb; "static/uploads/original_a.png" := thumb ]}.

Definition thumb_image : image :=
  {| fmode := "RGB"; fformat := Some "PNG"; fwidth := 6; fheight := 5; level := 200 |}.

(** A 60×50 image, whose JPEG is larger than 1 KB at every quality. *)
Definition photo : list Byte.byte := file_of "PNG" "RGB" 60 50 200.

Definition photo_disk : files := {[ "static/uploads/b.png" := photo ]}.

Definition photo_image : image :=
  {| fmode := "RGB"; fformat := Some "PNG"; fwidth := 60; fheight := 50; level := 200 |}.

(** The grey level of the image stored at a path. *)
Definition level_at (fs : files) (path : string) : option Z :=
  level <$> (fs !! path ≫= flat_open).

End Flat.

(** * The route table and what a computation may write *)

Section Routes.
Context `{Pillow}.

(** The requests that the routes of [app.py] hand to a handler; [/], which
    only renders the page template, is left out.  [uuid4] is the identifier
    that [uuid.uuid4()] draws while the upload is served. *)
Inductive call :=
| PostUpload (file : option FileStorage) (uuid4 : string)
| PostPreviewAdjustments (json : option (gmap string jvalue))
| PostAdjustBrightness (json : option (gmap string jvalue))
| PostCompress (json : option (gmap string jvalue))
| PostCrop (json : option (gmap string jvalue))
| GetDownload (filename : string)
| DeleteReset (filename : string).

Definition serve (c : call) : files → reply * files :=
  match c with
  | PostUpload file uuid4 => upload_image file uuid4
  | PostPreviewAdjustments json => preview_adjustments json
  | PostAdjustBrightness json => brightness json
  | PostCompress json => compress json
  | PostCrop json => crop json
  | GetDownload filename => download filename
  | DeleteReset filename => reset filename
  end.

(** [MAX_CONTENT_LENGTH] of the Flask configuration: 10 MB. *)
Definition MAX_CONTENT_LENGTH : Z := 10 * 1024 * 1024.

(** An upload as it reaches [upload_image]: the length of the request body
    and its ['image'] part, if it has one. *)
Record upload_form := {
  content_length : Z;
  image_part : option FileStorage
}.

(** [request.files.get('image')]: the form is parsed at the first access to
    [request.files], which raises [RequestEntityTooLarge] for a body longer
    than [MAX_CONTENT_LENGTH]. *)
Definition request_files (form : upload_form) : option (option FileStorage) :=
  if MAX_CONTENT_LENGTH <? content_length form then None else Some (image_part form).

(** [POST /upload] from the first line of its [try] block: the exception
    of [request.files] is answered by the [except] clause before anything
    is written. *)
Definition post_upload (form : upload_form) (uuid4 : string) : files → reply * files :=
  match request_files form with
  | Some file => upload_image file uuid4
  | None => λ fs, (JsonError 500 ExceptionText, fs)
  end.

(** [m] leaves every file outside [paths] as it found it, whether it
    returns or raises. *)
Definition only_writes {A} (paths : list string) (m : py A) : Prop :=
  ∀ (fs : files) (p : string), p ∉ paths → snd (m fs) !! p = fs !! p.

(** An error reply is either the 500 of the [except] clause, or one of the
    fixed 400 and 404 messages, sent before anything was written. *)
Definition classified (fs fs' : files) (status : Z) (error : error_text) : Prop :=
  (status = 500 ∧ error = ExceptionText) ∨
  ((status = 400 ∨ status = 404) ∧ (∃ m, error = Msg m) ∧ fs' = fs).

(** The name that [compress] gives to the working file of [name] for an
    output format. *)
Definition compressed_name (name output_format : string) : option string :=
  name_without_ext ← rsplit_dot name !! 0%nat;
  Some (name_without_ext ++ "." ++ format_to_ext output_format).

(** The renaming block of [compress], run on the files that [save_image]
    left: when the name changed, the old Current goes and the Original, if
    there is one, moves to the new name. *)
Definition after_rename (name new_filename : string) (fs : files) : files :=
  if bool_decide (new_filename ≠ name) then
    let fs1 := delete (os_path_join UPLOAD_FOLDER name) fs in
    match fs1 !! original_path (JStr name) with
    | Some original =>
        <[original_path (JStr new_filename) := original]>
          (delete (original_path (JStr name)) fs1)
    | None => fs1
    end
  else fs.

(** The files that a request names: the Current and the Original of its
    session, and for [compress] those of the renamed session as well. *)
Definition session_files (name : string) : list string :=
  [os_path_join UPLOAD_FOLDER name; os_path_join UPLOAD_FOLDER ("original_" ++ name)].

Definition named_files (c : call) : list string :=
  match c with
  | PostUpload (Some file) uuid4 =>
      match rsplit_dot (secure_filename (fs_filename file)) !! 1%nat with
      | Some ext => session_files (uuid4 ++ "." ++ str_lower ext)
      | None => []
      end
  | PostPreviewAdjustments (Some data)
  | PostAdjustBrightness (Some data)
  | PostCrop (Some data) =>
      match get data "filename" with
      | JStr name => [os_path_join UPLOAD_FOLDER name]
      | _ => []
      end
  | PostCompress (Some data) =>
      match get data "filename", upper_of (get_or data "outputFormat" (JStr "JPEG")) with
      | JStr name, Some output_format =>
          session_files name ++
          match compressed_name name output_format with
          | Some new_filename => session_files new_filename
          | None => []
          end
      | _, _ => []
      end
  | DeleteReset filename => session_files filename
  | _ => []
  end.

(** A plain file name: not empty, not [.] or [..], and without a [/], so
    that [static/uploads/<name>] is the one path of a file of the upload
    folder. *)
Fixpoint has_slash (s : string) : bool :=
  match s with
  | EmptyString => false
  | String c r => Ascii.eqb c "/" || has_slash r
  end.

Definition plain (name : string) : bool :=
  bool_decide (name ∉ [""; "."; ".."]) && negb (has_slash name).

(** The file name that a request carries; for an upload, the one it is
    about to give out. *)
Definition named_session (c : call) : option string :=
  match c with
  | PostUpload (Some file) uuid4 =>
      ext ← rsplit_dot (secure_filename (fs_filename file)) !! 1%nat;
      Some (uuid4 ++ "." ++ str_lower ext)
  | PostPreviewAdjustments (Some data)
  | PostAdjustBrightness (Some data)
  | PostCompress (Some data)
  | PostCrop (Some data) => as_str (get data "filename")
  | GetDownload filename
  | DeleteReset filename => Some filename
  | _ => None
  end.

End Routes.

(** ** A second small instance: a [secure_filename] that strips leading dots

    werkzeug's [secure_filename] removes leading dots, so that [".png"]
    becomes ["png"]; the instance below differs from [Flat] in this only. *)

Module Strict.

Fixpoint strip_dots (s : string) : string :=
  match s with
  | String "." r => strip_dots r
  | _ => s
  end.

Definition strict_python : Python := {|
  float := @float Flat.flat_python;
  float_1 := @float_1 Flat.flat_python;
  float_eqb := @float_eqb Flat.flat_python;
  float_truthy := @float_truthy Flat.flat_python;
  float_of_Z := @float_of_Z Flat.flat_python;
  float_of_str := @float_of_str Flat.flat_python;
  int_of_float := @int_of_float Flat.flat_python;
  int_of_str := @int_of_str Flat.flat_python;
  str_of_float := @str_of_float Flat.flat_python;
  round2_div := @round2_div Flat.flat_python;
  b64encode := @b64encode Flat.flat_python;
  secure_filename := strip_dots
|}.

Definition strict_pillow : @Pillow strict_python :=
  @Build_Pillow strict_python
    (@image _ Flat.flat_pillow)
    (@Image_open _ Flat.flat_pillow)
    (@Image_new_white _ Flat.flat_pillow)
    (@img_mode _ Flat.flat_pillow)
    (@img_format _ Flat.flat_pillow)
    (@img_width _ Flat.flat_pillow)
    (@img_height _ Flat.flat_pillow)
    (@img_convert _ Flat.flat_pillow)
    (@img_last_band _ Flat.flat_pillow)
    (@img_paste _ Flat.flat_pillow)
    (@img_enhance _ Flat.flat_pillow)
    (@img_crop _ Flat.flat_pillow)
    (@img_save _ Flat.flat_pillow).

End Strict.

(** ** A third small instance: a codec that shows its keyword arguments

    [Image.save] of this instance writes, before the bytes of [Flat], one
    byte for its [quality] keyword ([ff] when the keyword is not given) and
    one for [optimize]; [Image.open] skips the two. *)

Module Tagged.






(** The session [a.png] of [Flat.disk], written by this codec. *)
Definition thumb : list Byte.byte := Byte.xff :: Byte.x00 :: Flat.thumb.

Definition disk : files :=
  {[ "static/uploads/a.png" := thumb; "static/uploads/original_a.png" := thumb ]}.

End Tagged.

(** * Properties *)

Section Properties.
Context `{Pillow}.

(** ** The monad *)

Lemma bind_run {A B} (m : py A) (f : A → py B) (fs : files) :
  (m ≫= f) fs = match m fs with
                | (Some a, fs') => f a fs'
                | (None, fs') => (None, fs')
                end.
Proof. reflexivity. Qed.

Lemma bind_Some {A B} (m : py A) (f : A → py B) (fs fs' : files) (b : B) :
  (m ≫= f) fs = (Some b, fs') →
  ∃ a fs1, m fs = (Some a, fs1) ∧ f a fs1 = (Some b, fs').
Proof.
  rewrite bind_run. destruct (m fs) as [[a|] fs1]; [eauto | discriminate].
Qed.

Lemma lift_Some {A} (o : option A) (fs fs' : files) (a : A) :
  lift o fs = (Some a, fs') → o = Some a ∧ fs' = fs.
Proof. unfold lift. intros [= -> ->]. done. Qed.

Lemma handler_200 (body : py reply) (fs fs' : files) (b : json_body) :
  handler body fs = (Json200 b, fs') → body fs = (Some (Json200 b), fs').
Proof.
  unfold handler. destruct (body fs) as [[r|] fs1]; intros [= <- <-]; done.
Qed.

Lemma mret_Some {A} (a b : A) (fs fs' : files) :
  (mret a : py A) fs = (Some b, fs') → a = b ∧ fs' = fs.
Proof. intros [= -> ->]. done. Qed.

Lemma open_image_Some (path : string) (fs fs' : files) (img : image) :
  open_image path fs = (Some img, fs') → fs !! path ≫= Image_open = Some img ∧ fs' = fs.
Proof. unfold open_image. intros [= -> ->]. done. Qed.

Lemma os_path_exists_Some (p : string) (fs fs' : files) (found : bool) :
  os_path_exists p fs = (Some found, fs') →
  found = bool_decide (is_Some (fs !! p)) ∧ fs' = fs.
Proof. unfold os_path_exists. intros [= <- <-]. done. Qed.

(** Inversion of a computation that returned: one fact per step. *)
Ltac py_inv :=
  repeat match goal with
         | E : (_ ≫= _) _ = (Some _, _) |- _ =>
             apply bind_Some in E as (? & ? & ? & E)
         | E : lift _ _ = (Some _, _) |- _ => apply lift_Some in E as [? ->]
         | E : Some _ = Some ?x |- _ => is_var x; injection E as <-
         | E : mret _ _ = (Some _, _) |- _ => apply mret_Some in E as [? ->]
         | E : open_image _ _ = (Some _, _) |- _ => apply open_image_Some in E as [? ->]
         | E : os_path_exists _ _ = (Some _, _) |- _ =>
             apply os_path_exists_Some in E as [-> ->]
         end.

(** ** Paths *)

Lemma str_length_app (a b : string) :
  String.length (a ++ b) = (String.length a + String.length b)%nat.
Proof. induction a as [|c a IH]; simpl; [done | by rewrite IH]. Qed.

Lemma join_upload (s : string) :
  os_path_join UPLOAD_FOLDER s = if is_abs s then s else "static/uploads/" ++ s.
Proof. unfold os_path_join. by destruct (is_abs s). Qed.

Lemma join_upload_rel (s : string) :
  os_path_join UPLOAD_FOLDER ("original_" ++ s) = "static/uploads/original_" ++ s.
Proof. reflexivity. Qed.

(** The Original and the Current of a session are different files. *)
Lemma original_ne_current (s : string) :
  os_path_join UPLOAD_FOLDER ("original_" ++ s) ≠ os_path_join UPLOAD_FOLDER s.
Proof.
  rewrite join_upload_rel, join_upload. intros E.
  destruct (is_abs s) eqn:Habs.
  - rewrite <- E in Habs. discriminate.
  - apply (f_equal String.length) in E. rewrite !str_length_app in E.
    simpl in E. lia.
Qed.

(** ** What the handlers compute *)

Lemma save_image_default_run (img : image) (p : string) (fs : files) :
  save_image_default img p fs =
    match to_rgb img with
    | None => (None, fs)
    | Some img' =>
        match img_save img' (jpeg_args 95) with
        | Saved b => (Some (), <[p := b]> fs)
        | SaveError residue => (None, partial_alter residue p fs)
        end
    end.
Proof.
  unfold save_image_default, save_image, rgb_for, to_rgb. rewrite bind_run. simpl.
  unfold lift. destruct (mode_in img ALPHA_MODES); simpl.
  - destruct (on_white img); reflexivity.
  - reflexivity.
Qed.

Lemma preview_adjustments_run (data : gmap string jvalue) (fs : files) :
  preview_adjustments (Some data) fs =
    let filename := get data "filename" in
    if negb (truthy filename) then (JsonError 400 (Msg "Filename required"), fs)
    else match fs !! original_path filename with
         | None => (JsonError 404 (Msg "Original file not found"), fs)
         | Some original =>
             match adjusted data original, upload_path filename with
             | Some (img, img_info), Some filepath =>
                 match save_image_default img filepath fs with
                 | (Some _, fs') =>
                     match image_to_base64 img with
                     | Some preview => (Json200 (EditBody preview img_info), fs')
                     | None => (JsonError 500 ExceptionText, fs')
                     end
                 | (None, fs') => (JsonError 500 ExceptionText, fs')
                 end
             | _, _ => (JsonError 500 ExceptionText, fs)
             end
         end.
Proof.
  unfold preview_adjustments, handler, adjusted.
  rewrite bind_run. simpl.
  destruct (truthy (get data "filename")); simpl; [| reflexivity].
  rewrite bind_run. unfold os_path_exists at 1.
  destruct (fs !! original_path (get data "filename")) as [original|] eqn:E; simpl;
    [| reflexivity].
  rewrite bind_run. unfold open_image at 1. rewrite E. simpl.
  destruct (Image_open original) as [img0|]; simpl; [| reflexivity].
  repeat (rewrite bind_run; unfold lift at 1;
          match goal with |- context [match ?o ≫= _ with _ => _ end] =>
            destruct o; simpl; [| reflexivity] end).
  rewrite bind_run. unfold lift at 1.
  destruct (upload_path (get data "filename")) as [filepath|]; [| reflexivity].
  rewrite bind_run.
  destruct (save_image_default _ filepath fs) as [[[]|] fs']; [| reflexivity].
  rewrite bind_run. unfold lift.
  destruct (image_to_base64 _); reflexivity.
Qed.

Lemma brightness_run (data : gmap string jvalue) (fs : files) :
  brightness (Some data) fs =
    let filename := get data "filename" in
    match py_float (get_or data "brightness" (JFloat float_1)) with
    | None => (JsonError 500 ExceptionText, fs)
    | Some factor =>
        if negb (truthy filename) then (JsonError 400 (Msg "Filename required"), fs)
        else match upload_path filename with
             | None => (JsonError 500 ExceptionText, fs)
             | Some filepath =>
                 match fs !! filepath with
                 | None => (JsonError 404 (Msg "File not found"), fs)
                 | Some current =>
                     match brightened factor current with
                     | Some (img, img_info) =>
                         match save_image_default img filepath fs with
                         | (Some _, fs') =>
                             match image_to_base64 img with
                             | Some preview => (Json200 (EditBody preview img_info), fs')
                             | None => (JsonError 500 ExceptionText, fs')
                             end
                         | (None, fs') => (JsonError 500 ExceptionText, fs')
                         end
                     | None => (JsonError 500 ExceptionText, fs)
                     end
                 end
             end
    end.
Proof.
  unfold brightness, handler, brightened.
  rewrite bind_run. simpl. rewrite bind_run. unfold lift at 1.
  destruct (py_float _) as [factor|]; simpl; [| reflexivity].
  destruct (truthy (get data "filename")); simpl; [| reflexivity].
  rewrite bind_run. unfold lift at 1.
  destruct (upload_path (get data "filename")) as [filepath|]; [| reflexivity].
  rewrite bind_run. unfold os_path_exists at 1.
  destruct (fs !! filepath) as [current|] eqn:E; simpl; [| reflexivity].
  unfold adjust_brightness. rewrite !bind_run. unfold open_image at 1. rewrite E. simpl.
  destruct (Image_open current) as [img0|]; simpl; [| reflexivity].
  unfold lift at 1. destruct (to_rgb img0) as [img1|]; simpl; [| reflexivity].
  unfold lift at 1. destruct (img_enhance Brightness img1 factor) as [img|]; simpl;
    [| reflexivity].
  rewrite bind_run. unfold lift at 1.
  destruct (get_image_info img) as [info|]; simpl; [| reflexivity].
  rewrite bind_run.
  destruct (save_image_default img filepath fs) as [[[]|] fs']; [| reflexivity].
  rewrite bind_run. unfold lift. destruct (image_to_base64 img); reflexivity.
Qed.


Lemma upload_path_ne_original (v : jvalue) :
  upload_path v ≠ Some (original_path v).
Proof.
  destruct v as [| | | |s]; try discriminate. simpl. intros [= E].
  by apply (original_ne_current s).
Qed.

(** [preview_adjustments] succeeds exactly when the Original opens, the
    sliders and the encoders accept the image, and then it stores the JPEG
    of the adjusted Original as the Current. *)
Lemma preview_adjustments_200 (data : gmap string jvalue) (fs fs' : files) (body : json_body) :
  preview_adjustments (Some data) fs = (Json200 body, fs') ↔
  ∃ original img img_info filepath img' b preview,
    truthy (get data "filename") = true ∧
    fs !! original_path (get data "filename") = Some original ∧
    adjusted data original = Some (img, img_info) ∧
    upload_path (get data "filename") = Some filepath ∧
    to_rgb img = Some img' ∧
    img_save img' (jpeg_args 95) = Saved b ∧
    image_to_base64 img = Some preview ∧
    body = EditBody preview img_info ∧
    fs' = <[filepath := b]> fs.
Proof.
  rewrite preview_adjustments_run. cbv zeta. split.
  - destruct (truthy (get data "filename")); simpl; [| discriminate].
    destruct (fs !! original_path (get data "filename")) as [original|]; [| discriminate].
    destruct (adjusted data original) as [[img img_info]|] eqn:?; [| discriminate].
    destruct (upload_path (get data "filename")) as [filepath|]; [| discriminate].
    rewrite save_image_default_run.
    destruct (to_rgb img) as [img'|] eqn:?; [| discriminate].
    destruct (img_save img' (jpeg_args 95)) as [b|] eqn:?; [| discriminate].
    destruct (image_to_base64 img) as [preview|] eqn:?; [| discriminate].
    intros [= <- <-]. exists original, img, img_info, filepath, img', b, preview.
    repeat split; done.
  - intros (original & img & img_info & filepath & img' & b & preview &
            -> & -> & -> & -> & Hrgb & Hsave & Hpv & -> & ->).
    simpl. rewrite save_image_default_run, Hrgb, Hsave, Hpv. reflexivity.
Qed.

(** Whatever it replies, [preview_adjustments] leaves every file but the
    Current as it was. *)
Lemma preview_adjustments_frame (data : gmap string jvalue) (fs : files) (p : string) :
  upload_path (get data "filename") ≠ Some p →
  snd (preview_adjustments (Some data) fs) !! p = fs !! p.
Proof.
  intros Hp. rewrite preview_adjustments_run. cbv zeta.
  destruct (truthy (get data "filename")); simpl; [| done].
  destruct (fs !! original_path (get data "filename")) as [original|]; [| done].
  destruct (adjusted data original) as [[img img_info]|]; [| done].
  destruct (upload_path (get data "filename")) as [filepath|]; [| done].
  assert (filepath ≠ p) by congruence.
  rewrite save_image_default_run.
  destruct (to_rgb img) as [img'|]; [| done].
  destruct (img_save img' (jpeg_args 95)) as [b|residue].
  - destruct (image_to_base64 img); simpl; by rewrite lookup_insert_ne.
  - simpl. by rewrite lookup_partial_alter_ne.
Qed.

(** The reply of [preview_adjustments] is a function of the request and of
    the Original. *)
Lemma preview_adjustments_reply (data : gmap string jvalue) (fs1 fs2 : files) :
  fs1 !! original_path (get data "filename") = fs2 !! original_path (get data "filename") →
  fst (preview_adjustments (Some data) fs1) = fst (preview_adjustments (Some data) fs2).
Proof.
  intros E. rewrite !preview_adjustments_run. cbv zeta. rewrite E.
  destruct (truthy (get data "filename")); simpl; [| done].
  destruct (fs2 !! original_path (get data "filename")) as [original|]; [| done].
  destruct (adjusted data original) as [[img img_info]|]; [| done].
  destruct (upload_path (get data "filename")) as [filepath|]; [| done].
  rewrite !save_image_default_run.
  destruct (to_rgb img) as [img'|]; [| done].
  destruct (img_save img' (jpeg_args 95)) as [b|residue]; [| done].
  destruct (image_to_base64 img); done.
Qed.

(** C5: two calls of preview-adjustments with the same request give the
    same reply, preview included, and the first call leaves the Original
    as it was. *)
Theorem preview_adjustments_idempotent (json : option (gmap string jvalue)) (fs : files) :
  fst (preview_adjustments json (snd (preview_adjustments json fs)))
    = fst (preview_adjustments json fs) ∧
  ∀ data, json = Some data →
    snd (preview_adjustments json fs) !! original_path (get data "filename")
      = fs !! original_path (get data "filename").
Proof.
  destruct json as [data|]; [| split; [reflexivity | discriminate]].
  assert (Hframe : snd (preview_adjustments (Some data) fs)
                     !! original_path (get data "filename")
                   = fs !! original_path (get data "filename")).
  { apply preview_adjustments_frame, upload_path_ne_original. }
  split.
  - by apply preview_adjustments_reply.
  - by intros ? [= <-].
Qed.

(** C2, amended: preview-adjustments A and then B on one session leaves the
    reply and the files, the Current among them, that B alone leaves. *)
Theorem preview_adjustments_rebased (A B : gmap string jvalue) (fs fsB : files)
    (body : json_body) :
  get A "filename" = get B "filename" →
  preview_adjustments (Some B) fs = (Json200 body, fsB) →
  preview_adjustments (Some B) (snd (preview_adjustments (Some A) fs)) = (Json200 body, fsB).
Proof.
  intros Hname HB.
  apply preview_adjustments_200 in HB
    as (original & img & img_info & filepath & img' & b & preview &
        Ht & Ho & Ha & Hp & Hrgb & Hsave & Hpv & -> & ->).
  apply preview_adjustments_200.
  exists original, img, img_info, filepath, img', b, preview.
  repeat split; try done.
  - rewrite preview_adjustments_frame; [done |].
    rewrite Hname. apply upload_path_ne_original.
  - apply map_eq. intros k. destruct (decide (filepath = k)) as [<- | Hk].
    + by rewrite !lookup_insert_eq.
    + rewrite !lookup_insert_ne by done.
      rewrite preview_adjustments_frame; [done |]. congruence.
Qed.


(** ** The quality search *)

Lemma quality_search_unfold_loop (img : image) (T q : Z) :
  quality_search img T q =
    match Z_lt_dec 10 q with
    | right _ => ([], Some q)
    | left _ =>
        match save_to_buffer img (jpeg_args q) with
        | None => ([q], None)
        | Some buffered =>
            match Z_le_dec (Z.of_nat (length buffered)) (1024 * T) with
            | left _ => ([q], Some q)
            | right _ =>
                let '(encodes, result) := quality_search img T (q - 5) in
                (q :: encodes, result)
            end
        end
    end.
Proof.
  funelim (quality_search img T q);
    repeat match goal with
           | IH : _ = match _ with left _ => _ | right _ => _ end |- _ => clear IH
           end;
    repeat match goal with
           | E : ?x = _ |- context [?x] => rewrite E
           end; reflexivity.
Qed.

Lemma quality_search_result (img : image) (T Q : Z) :
  (∀ q, 10 < q → q ≤ Q → is_Some (save_to_buffer img (jpeg_args q))) →
  ∃ q, snd (quality_search img T Q) = Some q ∧
       q ≤ Q ∧ (Q - q) mod 5 = 0 ∧ (5 < Q → 5 < q) ∧
       (fits img T q = true ∨ q ≤ 10).
Proof.
  remember (Z.to_nat (Q - 10)) as n eqn:Hn. revert Q Hn.
  induction n as [n IH] using lt_wf_ind. intros Q Hn Hsave.
  rewrite quality_search_unfold_loop.
  destruct (Z_lt_dec 10 Q) as [Hgt | Hle].
  - destruct (Hsave Q) as [buffered Hb]; [lia.. |]. rewrite Hb.
    destruct (Z_le_dec _ _) as [Hfit | Hbig].
    + exists Q. rewrite Z.sub_diag. repeat split; [lia.. |].
      left. unfold fits. rewrite Hb. by apply Z.leb_le.
    + destruct (IH (Z.to_nat (Q - 5 - 10)) ltac:(lia) (Q - 5) eq_refl)
        as (q & Hq & Hqle & Hmod & Hfloor & Hfits).
      { intros q ? ?. apply Hsave; lia. }
      destruct (quality_search img T (Q - 5)) as [encodes result]. simpl in *.
      exists q. repeat split; [done | lia | | lia | done].
      replace (Q - q) with ((Q - 5 - q) + 1 * 5) by lia.
      by rewrite Z.mod_add.
  - exists Q. rewrite Z.sub_diag. repeat split; [lia.. | right; lia].
Qed.

Lemma quality_search_encodes (img : image) (T Q : Z) :
  let encodes := fst (quality_search img T Q) in
  (∀ (i : nat) (e : Z), encodes !! i = Some e → e = Q - 5 * Z.of_nat i ∧ 10 < e) ∧
  Z.of_nat (length encodes) ≤ Z.max 0 ((Q - 6) / 5).
Proof.
  remember (Z.to_nat (Q - 10)) as n eqn:Hn. revert Q Hn.
  induction n as [n IH] using lt_wf_ind. intros Q Hn.
  rewrite quality_search_unfold_loop.
  assert (Hone : ∀ (i : nat) (e : Z), 10 < Q →
            [Q] !! i = Some e → e = Q - 5 * Z.of_nat i ∧ 10 < e).
  { intros [|i] e ? [=]. subst. lia. }
  destruct (Z_lt_dec 10 Q) as [Hgt | Hle]; [| simpl; split; [done | lia]].
  assert (1 ≤ (Q - 6) / 5) by (apply Z.div_le_lower_bound; lia).
  destruct (save_to_buffer img (jpeg_args Q)) as [buffered|];
    [| simpl; split; [eauto | lia]].
  destruct (Z_le_dec _ _) as [Hfit | Hbig]; [simpl; split; [eauto | lia] |].
  specialize (IH (Z.to_nat (Q - 5 - 10)) ltac:(lia) (Q - 5) eq_refl).
  destruct (quality_search img T (Q - 5)) as [encodes result].
  simpl in *. destruct IH as [IHq IHlen]. split.
  - intros [|i] e; simpl.
    + intros [= <-]. lia.
    + intros He. apply IHq in He. lia.
  - replace (Q - 6) with ((Q - 5 - 6) + 1 * 5) by lia.
    rewrite Z.div_add by lia.
    assert (0 ≤ (Q - 5 - 6) / 5) by (apply Z.div_pos; lia). lia.
Qed.


Lemma compress_image_run (image_path : string) (quality : Z) (max_size_kb : option Z)
    (fs : files) (img0 img : image) :
  fs !! image_path ≫= Image_open = Some img0 →
  to_rgb img0 = Some img →
  compress_image image_path quality max_size_kb fs =
    match max_size_kb with
    | Some target =>
        if target =? 0 then (Some (img, quality), fs)
        else (q ← snd (quality_search img target quality); Some (img, q), fs)
    | None => (Some (img, quality), fs)
    end.
Proof.
  intros Hopen Hrgb. unfold compress_image.
  rewrite bind_run. unfold open_image at 1. rewrite Hopen.
  rewrite bind_run. unfold lift at 1. rewrite Hrgb.
  destruct max_size_kb as [target|]; [| reflexivity].
  destruct (target =? 0); [reflexivity |].
  rewrite bind_run. unfold lift.
  destruct (snd (quality_search img target quality)); reflexivity.
Qed.

(** C1, amended: with a target of [T ≠ 0] KB, [compress_image] returns a
    quality [q ≤ Q] whose JPEG is at most [T] KB, or [q ≤ 10]; the floor
    value is [10] itself when the base quality is a multiple of 5 and at
    least 10. *)
Theorem compress_image_target (image_path : string) (Q T : Z) (fs : files)
    (img0 img : image) :
  fs !! image_path ≫= Image_open = Some img0 →
  to_rgb img0 = Some img →
  (∀ q, 10 < q → q ≤ Q → is_Some (save_to_buffer img (jpeg_args q))) →
  T ≠ 0 →
  ∃ q, compress_image image_path Q (Some T) fs = (Some (img, q), fs) ∧
       q ≤ Q ∧
       (fits img T q = true ∨ q ≤ 10) ∧
       (10 ≤ Q → Q mod 5 = 0 → fits img T q = true ∨ q = 10).
Proof.
  intros Hopen Hrgb Hsave HT.
  destruct (quality_search_result img T Q) as (q & Hq & Hle & Hmod & Hfloor & Hfits);
    [done |].
  exists q. rewrite (compress_image_run _ _ _ _ img0 img) by done.
  apply Z.eqb_neq in HT. rewrite HT, Hq. simpl.
  repeat split; [done.. |].
  intros HQ HQ5. destruct Hfits as [? | Hq10]; [by left | right].
  assert (Hq5 : q mod 5 = 0).
  { replace q with (Q + (q - Q)) by lia.
    rewrite <- Zplus_mod_idemp_l, HQ5. simpl.
    replace (q - Q) with (- (Q - q)) by lia.
    by apply Z_mod_zero_opp_full. }
  assert (5 < q) by (apply Hfloor; lia).
  apply Z.mod_divide in Hq5; [| done]. destruct Hq5 as [k ->]. lia.
Qed.

(** C7, amended: the search loop ends for every starting quality [Q] and
    target; the qualities it encodes at are [Q], [Q - 5], [Q - 10], ..., all
    above 10, and there are at most [max 0 ((Q - 6) / 5)] of them (15 from
    the default 85, 18 from 100). *)
Theorem quality_search_terminates (img : image) (T Q : Z) :
  ∃ encodes result,
    quality_search img T Q = (encodes, result) ∧
    (∀ (i : nat) (e : Z), encodes !! i = Some e → e = Q - 5 * Z.of_nat i ∧ 10 < e) ∧
    Z.of_nat (length encodes) ≤ Z.max 0 ((Q - 6) / 5).
Proof.
  pose proof (quality_search_encodes img T Q) as Hq.
  destruct (quality_search img T Q) as [encodes result].
  by exists encodes, result.
Qed.


(** ** Upload *)

(** C10: after a successful upload the Current and the Original of the new
    session both hold the uploaded bytes. *)
Theorem upload_stores_two_copies (file : FileStorage) (uuid4 : string) (fs fs' : files)
    (filename preview : string) (info : image_info) :
  position file = 0%nat →
  upload_image (Some file) uuid4 fs = (Json200 (UploadBody filename preview info), fs') →
  fs' !! os_path_join UPLOAD_FOLDER filename = Some (stream file) ∧
  fs' !! os_path_join UPLOAD_FOLDER ("original_" ++ filename) = Some (stream file).
Proof.
  intros Hpos Hup. unfold upload_image in Hup. apply handler_200 in Hup.
  destruct (bool_decide (fs_filename file = "")); [discriminate |].
  destruct (negb (allowed_file (fs_filename file))); [discriminate |].
  py_inv.
  match goal with E : Json200 _ = Json200 _ |- _ => injection E as <- <- <- end.
  repeat match goal with
         | E : file_save _ _ _ = (Some _, _) |- _ =>
             unfold file_save in E; injection E as <- <-
         end.
  simpl. rewrite Hpos. simpl. split.
  - rewrite lookup_insert_ne by apply original_ne_current.
    by rewrite lookup_insert_eq.
  - by rewrite lookup_insert_eq.
Qed.


(** ** Crop and adjust-brightness *)

Lemma save_image_default_Some (img : image) (p : string) (fs fs' : files) :
  save_image_default img p fs = (Some (), fs') →
  ∃ img' b, to_rgb img = Some img' ∧ img_save img' JPEG_95 = Saved b ∧
            fs' = <[p := b]> fs.
Proof.
  rewrite save_image_default_run.
  destruct (to_rgb img) as [img'|]; [| discriminate].
  destruct (img_save img' (jpeg_args 95)) as [b|] eqn:Hsave; [| discriminate].
  intros [= <-]. by exists img', b.
Qed.

Lemma upload_path_Some (v : jvalue) (p : string) :
  upload_path v = Some p →
  ∃ name, v = JStr name ∧ as_str v = Some name ∧ p = os_path_join UPLOAD_FOLDER name.
Proof. destruct v; try discriminate. intros [= <-]. eauto. Qed.

(** C9: after a successful crop or adjust-brightness the Current holds what
    Pillow writes for format JPEG at quality 95, whatever the extension in
    the session's file name. *)
Theorem current_saved_as_jpeg_95 (data : gmap string jvalue) (fs fs' : files)
    (body : json_body) :
  crop (Some data) fs = (Json200 body, fs') ∨
  brightness (Some data) fs = (Json200 body, fs') →
  ∃ name edited img b,
    get data "filename" = JStr name ∧
    to_rgb edited = Some img ∧
    img_save img JPEG_95 = Saved b ∧
    fs' !! os_path_join UPLOAD_FOLDER name = Some b.
Proof.
  intros [Hrun | Hrun]; apply handler_200 in Hrun.
  - unfold crop in Hrun. py_inv. simpl in *.
    destruct (negb (truthy _)); [discriminate |].
    destruct (_ || _); [discriminate |].
    py_inv. destruct (negb _); [discriminate |]. py_inv.
    match goal with E : upload_path _ = Some _ |- _ =>
      apply upload_path_Some in E as (name & Hname & _ & ->) end.
    match goal with E : save_image_default ?i _ _ = (Some ?u, _) |- _ =>
      destruct u; apply save_image_default_Some in E as (img & b & Hrgb & Hsave & ->);
      exists name, i, img, b end.
    by rewrite lookup_insert_eq.
  - unfold brightness in Hrun. py_inv. simpl in *.
    destruct (negb (truthy _)); [discriminate |].
    py_inv. destruct (negb _); [discriminate |]. py_inv.
    match goal with E : upload_path _ = Some _ |- _ =>
      apply upload_path_Some in E as (name & Hname & _ & ->) end.
    match goal with E : save_image_default ?i _ _ = (Some ?u, _) |- _ =>
      destruct u; apply save_image_default_Some in E as (img & b & Hrgb & Hsave & ->);
      exists name, i, img, b end.
    by rewrite lookup_insert_eq.
Qed.


(** ** Reset and download *)

Lemma remove_if_exists {A} (p : string) (k : py A) (fs : files) :
  (found ← os_path_exists p; _ ← when found (os_remove p); k) fs = k (delete p fs).
Proof.
  rewrite bind_run. unfold os_path_exists. rewrite bind_run. unfold when, os_remove.
  destruct (fs !! p) as [b|] eqn:E; simpl.
  - by rewrite E.
  - by rewrite delete_id.
Qed.

Lemma reset_run (filename : string) (fs : files) :
  reset filename fs =
    (Json200 SuccessBody,
     delete (os_path_join UPLOAD_FOLDER ("original_" ++ filename))
       (delete (os_path_join UPLOAD_FOLDER filename) fs)).
Proof. unfold reset, handler. by rewrite !remove_if_exists. Qed.

Lemma download_run (filename : string) (fs : files) :
  download filename fs =
    match fs !! os_path_join UPLOAD_FOLDER filename with
    | Some data => (SendFile data ("edited_" ++ filename), fs)
    | None => (JsonError 404 (Msg "File not found"), fs)
    end.
Proof.
  unfold download, handler. rewrite bind_run. unfold os_path_exists. simpl.
  destruct (fs !! os_path_join UPLOAD_FOLDER filename) as [data|] eqn:E; simpl;
    [| reflexivity].
  rewrite bind_run. unfold read_file. by rewrite E.
Qed.

(** C8: [reset] succeeds on every session id and leaves neither the Current
    nor the Original; on an id without files it changes nothing; afterwards
    download and both adjustment handlers answer 404 for that id. *)
Theorem reset_removes_session (id : string) (fs : files) :
  let fs' := snd (reset id fs) in
  fst (reset id fs) = Json200 SuccessBody ∧
  fs' !! os_path_join UPLOAD_FOLDER id = None ∧
  fs' !! os_path_join UPLOAD_FOLDER ("original_" ++ id) = None ∧
  reset id fs' = (Json200 SuccessBody, fs') ∧
  download id fs' = (JsonError 404 (Msg "File not found"), fs') ∧
  ∀ data, get data "filename" = JStr id → id ≠ "" →
    preview_adjustments (Some data) fs'
      = (JsonError 404 (Msg "Original file not found"), fs') ∧
    (is_Some (py_float (get_or data "brightness" (JFloat float_1))) →
     brightness (Some data) fs' = (JsonError 404 (Msg "File not found"), fs')).
Proof.
  cbv zeta. rewrite reset_run. cbn [fst snd].
  set (cur := os_path_join UPLOAD_FOLDER id).
  set (orig := os_path_join UPLOAD_FOLDER ("original_" ++ id)).
  assert (Hcur : delete orig (delete cur fs) !! cur = None).
  { rewrite lookup_delete_ne by apply original_ne_current. apply lookup_delete_eq. }
  assert (Horig : delete orig (delete cur fs) !! orig = None) by apply lookup_delete_eq.
  split; [done |]. split; [done |]. split; [done |]. split; [| split].
  - rewrite reset_run. fold cur orig.
    rewrite (delete_id _ cur) by done. by rewrite delete_id.
  - rewrite download_run. fold cur. by rewrite Hcur.
  - intros data Hname Hid. split.
    + rewrite preview_adjustments_run. cbv zeta. rewrite Hname.
      change (original_path (JStr id)) with orig. rewrite Horig.
      simpl. by rewrite bool_decide_false.
    + intros [factor Hf]. rewrite brightness_run. cbv zeta. rewrite Hf, Hname.
      change (upload_path (JStr id)) with (Some cur). cbv beta iota. rewrite Hcur.
      simpl. by rewrite bool_decide_false.
Qed.


(** ** Compress *)

Lemma split_last_dot_length (s a b : string) :
  split_last_dot s = Some (a, b) →
  String.length s = (String.length a + 1 + String.length b)%nat.
Proof.
  revert a b. induction s as [|c r IH]; intros a b; simpl; [discriminate |].
  destruct (split_last_dot r) as [[a' b']|].
  - intros [= <- <-]. simpl. rewrite (IH a' b' eq_refl). lia.
  - destruct (Ascii.eqb c "."); [| discriminate]. intros [= <- <-]. simpl. lia.
Qed.

Lemma rsplit_dot_head_length (s a : string) :
  rsplit_dot s !! 0%nat = Some a → (String.length a ≤ String.length s)%nat.
Proof.
  unfold rsplit_dot. destruct (split_last_dot s) as [[a' b']|] eqn:E; simpl.
  - intros [= <-]. apply split_last_dot_length in E. lia.
  - by intros [= <-].
Qed.

Lemma format_to_ext_length (output_format : string) :
  (String.length (format_to_ext output_format) ≤ 4)%nat.
Proof. unfold format_to_ext. repeat case_bool_decide; simpl; lia. Qed.

Lemma join_upload_inj (a b : string) :
  os_path_join UPLOAD_FOLDER a = os_path_join UPLOAD_FOLDER b → a = b.
Proof.
  rewrite !join_upload.
  destruct (is_abs a) eqn:Ha, (is_abs b) eqn:Hb; intros E.
  - done.
  - subst a. discriminate.
  - subst b. discriminate.
  - by apply (inj (String.app "static/uploads/")) in E.
Qed.





Lemma save_image_Some (img : image) (p format : string) (quality : Z) (fs fs' : files)
    (u : unit) :
  save_image img p format quality fs = (Some u, fs') →
  ∃ stored b, rgb_for format img = Some stored ∧
              img_save stored (save_kwargs format quality) = Saved b ∧
              fs' = <[p := b]> fs.
Proof.
  unfold save_image. intros E. py_inv. unfold save_to_file in E.
  destruct (img_save _ _) as [b|] eqn:Hsave; [| discriminate].
  injection E as <- <-. eauto.
Qed.


(** The files that the renaming block of [compress] touches are the old
    Current, the old Original and the new Original. *)
Lemma new_current_kept (name name_without_ext output_format : string) :
  rsplit_dot name !! 0%nat = Some name_without_ext →
  let new_filename := name_without_ext ++ "." ++ format_to_ext output_format in
  os_path_join UPLOAD_FOLDER new_filename ≠ original_path (JStr name) ∧
  os_path_join UPLOAD_FOLDER new_filename ≠ original_path (JStr new_filename) ∧
  (new_filename ≠ name →
   os_path_join UPLOAD_FOLDER new_filename ≠ os_path_join UPLOAD_FOLDER name).
Proof.
  intros Hhead new_filename. unfold original_path. simpl py_str. repeat split.
  - intros E. apply join_upload_inj, (f_equal String.length) in E.
    subst new_filename. rewrite !str_length_app in E. simpl in E.
    pose proof (rsplit_dot_head_length _ _ Hhead).
    pose proof (format_to_ext_length output_format). lia.
  - intros E. symmetry in E. by apply original_ne_current in E.
  - intros Hne E. by apply join_upload_inj in E.
Qed.






(** ** Crop: validation and the crop box *)

Lemma crop_without_dimension (data : gmap string jvalue) (fs : files) :
  py_int (get data "width") = None ∨ py_int (get data "height") = None →
  crop (Some data) fs = (JsonError 500 ExceptionText, fs).
Proof.
  intros Hdim. unfold crop, handler. rewrite bind_run. simpl.
  rewrite bind_run. unfold lift at 1.
  destruct (py_int (get_or data "x" (JInt 0))); [| reflexivity].
  rewrite bind_run. unfold lift at 1.
  destruct (py_int (get_or data "y" (JInt 0))); [| reflexivity].
  rewrite bind_run. unfold lift at 1.
  destruct (py_int (get data "width")); [| reflexivity].
  rewrite bind_run. unfold lift at 1.
  destruct (py_int (get data "height")); [| reflexivity].
  by destruct Hdim.
Qed.

Lemma crop_zero_dimension (data : gmap string jvalue) (fs : files) (x y width height : Z) :
  py_int (get_or data "x" (JInt 0)) = Some x →
  py_int (get_or data "y" (JInt 0)) = Some y →
  py_int (get data "width") = Some width →
  py_int (get data "height") = Some height →
  truthy (get data "filename") = true →
  width = 0 ∨ height = 0 →
  crop (Some data) fs = (JsonError 400 (Msg "Width and height required"), fs).
Proof.
  intros Hx Hy Hw Hh Hname Hzero. unfold crop, handler. rewrite bind_run. simpl.
  rewrite bind_run. unfold lift at 1. rewrite Hx.
  rewrite bind_run. unfold lift at 1. rewrite Hy.
  rewrite bind_run. unfold lift at 1. rewrite Hw.
  rewrite bind_run. unfold lift at 1. rewrite Hh.
  rewrite Hname. simpl.
  destruct Hzero as [-> | ->]; simpl; [done |]. by rewrite orb_true_r.
Qed.

(** What the two assignments of [crop_image] do ensure: each edge is
    clamped on one side. *)
Lemma crop_box_one_sided (img_w img_h x y width height : Z) :
  let '(x0, y0, x1, y1) := crop_box img_w img_h x y width height in
  0 ≤ x0 ∧ 0 ≤ y0 ∧ x1 ≤ img_w ∧ y1 ≤ img_h.
Proof. unfold crop_box. lia. Qed.

(** Within the image, the box is the requested rectangle cut at the
    borders. *)
Lemma crop_box_inside (img_w img_h x y width height : Z) :
  0 ≤ img_w → 0 ≤ img_h →
  x ≤ img_w → y ≤ img_h → 0 ≤ x + width → 0 ≤ y + height →
  let '(x0, y0, x1, y1) := crop_box img_w img_h x y width height in
  0 ≤ x0 ≤ img_w ∧ 0 ≤ y0 ≤ img_h ∧ 0 ≤ x1 ≤ img_w ∧ 0 ≤ y1 ≤ img_h.
Proof. unfold crop_box. lia. Qed.


(** C3, at the failing input: a crop request without [width] is answered
    with the 500 of the generic handler, not with the 400 of the
    validation, on every disk. *)
Theorem crop_missing_width_is_500 (fs : files) :
  crop (request [("filename", JStr "a.png"); ("x", JInt 0); ("y", JInt 0);
                 ("height", JInt 10)]) fs
    = (JsonError 500 ExceptionText, fs).
Proof. apply crop_without_dimension. left. reflexivity. Qed.

Example crop_zero_width_is_400 (fs : files) :
  crop (request [("filename", JStr "a.png"); ("x", JInt 0); ("y", JInt 0);
                 ("width", JInt 0); ("height", JInt 10)]) fs
    = (JsonError 400 (Msg "Width and height required"), fs).
Proof. by apply (crop_zero_dimension _ fs 0 0 0 10); [..| left]. Qed.

End Properties.

(** * Further properties of the handlers *)

Section More.
Context `{Pillow}.

(** ** Replies *)

Lemma handler_reply (body : py reply) (fs fs' : files) (r : reply) :
  handler body fs = (r, fs') →
  r = JsonError 500 ExceptionText ∨ body fs = (Some r, fs').
Proof.
  unfold handler. destruct (body fs) as [[r'|] fs1]; intros [= <- <-]; auto.
Qed.

(** Inversion of a returned computation, through the branches as well. *)
Ltac py_steps :=
  repeat match goal with
         | E : (_ ≫= _) _ = (Some _, _) |- _ =>
             apply bind_Some in E as (? & ? & ? & E)
         | E : lift _ _ = (Some _, _) |- _ => apply lift_Some in E as [? ->]
         | E : Some _ = Some ?x |- _ => is_var x; injection E as <-
         | E : mret _ _ = (Some _, _) |- _ => apply mret_Some in E as [? ->]
         | E : open_image _ _ = (Some _, _) |- _ => apply open_image_Some in E as [? ->]
         | E : os_path_exists _ _ = (Some _, _) |- _ =>
             apply os_path_exists_Some in E as [-> ->]
         | E : (if ?b then _ else _) _ = (Some _, _) |- _ => destruct b eqn:?
         | E : (let '(_, _) := ?x in _) _ = (Some _, _) |- _ => destruct x
         | E : match ?o with Some _ => _ | None => _ end _ = (Some _, _) |- _ =>
             destruct o eqn:?
         end.

Ltac classify Hrun :=
  apply handler_reply in Hrun as [[= -> ->] | Hrun]; [by left | right];
  py_steps;
  try match goal with
      | E : JsonError _ _ = JsonError _ _ |- _ => injection E as <- <-; by eauto
      | E : Json200 _ = JsonError _ _ |- _ => discriminate E
      | E : SendFile _ _ = JsonError _ _ |- _ => discriminate E
      end.

Lemma crop_error (json : option (gmap string jvalue)) (fs fs' : files)
    (status : Z) (error : error_text) :
  crop json fs = (JsonError status error, fs') → classified fs fs' status error.
Proof. intros Hrun. unfold crop in Hrun. classify Hrun. Qed.

Lemma brightness_error (json : option (gmap string jvalue)) (fs fs' : files)
    (status : Z) (error : error_text) :
  brightness json fs = (JsonError status error, fs') → classified fs fs' status error.
Proof. intros Hrun. unfold brightness in Hrun. classify Hrun. Qed.

Lemma preview_adjustments_error (json : option (gmap string jvalue)) (fs fs' : files)
    (status : Z) (error : error_text) :
  preview_adjustments json fs = (JsonError status error, fs') →
  classified fs fs' status error.
Proof. intros Hrun. unfold preview_adjustments in Hrun. classify Hrun. Qed.

Lemma compress_error (json : option (gmap string jvalue)) (fs fs' : files)
    (status : Z) (error : error_text) :
  compress json fs = (JsonError status error, fs') → classified fs fs' status error.
Proof. intros Hrun. unfold compress in Hrun. classify Hrun. Qed.

Lemma upload_image_error (file : option FileStorage) (uuid4 : string) (fs fs' : files)
    (status : Z) (error : error_text) :
  upload_image file uuid4 fs = (JsonError status error, fs') →
  classified fs fs' status error.
Proof. intros Hrun. unfold upload_image in Hrun. classify Hrun. Qed.

Lemma download_error (filename : string) (fs fs' : files)
    (status : Z) (error : error_text) :
  download filename fs = (JsonError status error, fs') → classified fs fs' status error.
Proof. intros Hrun. unfold download in Hrun. classify Hrun. Qed.

Lemma reset_error (filename : string) (fs fs' : files)
    (status : Z) (error : error_text) :
  reset filename fs = (JsonError status error, fs') → classified fs fs' status error.
Proof. intros Hrun. rewrite reset_run in Hrun. discriminate. Qed.

Lemma serve_error (c : call) (fs fs' : files) (status : Z) (error : error_text) :
  serve c fs = (JsonError status error, fs') → classified fs fs' status error.
Proof.
  destruct c; simpl.
  - apply upload_image_error.
  - apply preview_adjustments_error.
  - apply brightness_error.
  - apply compress_error.
  - apply crop_error.
  - apply download_error.
  - apply reset_error.
Qed.

(** X1: whatever the request, an error reply carries status 400, 404 or
    500, and the text of a caught exception exactly when the status is
    500. *)
Theorem error_statuses (c : call) (fs fs' : files) (status : Z) (error : error_text) :
  serve c fs = (JsonError status error, fs') →
  (status = 400 ∨ status = 404 ∨ status = 500) ∧
  (status = 500 ↔ error = ExceptionText).
Proof.
  intros Hrun. apply serve_error in Hrun as [[-> ->] | ([-> | ->] & [m ->] & _)].
  - split; [auto | done].
  - split; [auto | split; discriminate].
  - split; [auto | split; discriminate].
Qed.

(** X2: a request answered with 400 or 404 has changed no file. *)
Theorem client_error_writes_nothing (c : call) (fs fs' : files) (status : Z)
    (error : error_text) :
  serve c fs = (JsonError status error, fs') → status ≠ 500 → fs' = fs.
Proof.
  intros Hrun Hstatus. by apply serve_error in Hrun as [[-> _] | (_ & _ & ->)].
Qed.

(** ** What a handler may write *)

Lemma only_writes_mret {A} (paths : list string) (a : A) : only_writes paths (mret a).
Proof. by intros fs p _. Qed.

Lemma only_writes_lift {A} (paths : list string) (o : option A) : only_writes paths (lift o).
Proof. by intros fs p _. Qed.

Lemma only_writes_read {A} (paths : list string) (f : files → option A) :
  only_writes paths (λ fs, (f fs, fs)).
Proof. by intros fs p _. Qed.

Lemma only_writes_bind {A B} (paths : list string) (m : py A) (k : A → py B) :
  only_writes paths m → (∀ a, only_writes paths (k a)) → only_writes paths (m ≫= k).
Proof.
  intros Hm Hk fs p Hp. rewrite bind_run. specialize (Hm fs p Hp).
  destruct (m fs) as [[a|] fs1]; simpl in *; [| done].
  by rewrite (Hk a fs1 p Hp).
Qed.

(** A step that cannot write lets what follows rely on its result. *)
Lemma only_writes_lift_bind {A B} (paths : list string) (o : option A) (k : A → py B) :
  (∀ a, o = Some a → only_writes paths (k a)) → only_writes paths (lift o ≫= k).
Proof.
  intros Hk fs p Hp. rewrite bind_run. unfold lift.
  destruct o as [a|]; [| done]. by apply Hk.
Qed.

Lemma only_writes_handler (paths : list string) (body : py reply) :
  only_writes paths body →
  ∀ fs p, p ∉ paths → snd (handler body fs) !! p = fs !! p.
Proof.
  intros Hbody fs p Hp. specialize (Hbody fs p Hp). unfold handler.
  by destruct (body fs) as [[r|] fs1].
Qed.

Lemma only_writes_save_to_file (paths : list string) (img : image) (p : string)
    (args : save_args) :
  p ∈ paths → only_writes paths (save_to_file img p args).
Proof.
  intros Hin fs q Hq. unfold save_to_file.
  assert (p ≠ q) by (intros ->; done).
  destruct (img_save img args); simpl.
  - by rewrite lookup_insert_ne.
  - by rewrite lookup_partial_alter_ne.
Qed.

Lemma only_writes_save_image (paths : list string) (img : image) (p format : string)
    (quality : Z) :
  p ∈ paths → only_writes paths (save_image img p format quality).
Proof.
  intros Hin. unfold save_image. apply only_writes_bind; [apply only_writes_lift |].
  intros a. by apply only_writes_save_to_file.
Qed.

Lemma only_writes_remove (paths : list string) (p : string) :
  p ∈ paths → only_writes paths (os_remove p).
Proof.
  intros Hin fs q Hq. unfold os_remove.
  assert (p ≠ q) by (intros ->; done).
  destruct (fs !! p); simpl; [by rewrite lookup_delete_ne | done].
Qed.

Lemma only_writes_rename (paths : list string) (old new : string) :
  old ∈ paths → new ∈ paths → only_writes paths (os_rename old new).
Proof.
  intros Hold Hnew fs q Hq. unfold os_rename.
  assert (old ≠ q) by (intros ->; done). assert (new ≠ q) by (intros ->; done).
  destruct (fs !! old); simpl; [| done].
  by rewrite lookup_insert_ne, lookup_delete_ne.
Qed.

Lemma only_writes_when (paths : list string) (b : bool) (body : py unit) :
  only_writes paths body → only_writes paths (when b body).
Proof. intros Hbody. destruct b; [done | apply only_writes_mret]. Qed.

Lemma only_writes_file_save (paths : list string) (file : FileStorage) (dst : string) :
  dst ∈ paths → only_writes paths (file_save file dst).
Proof.
  intros Hin fs q Hq. unfold file_save. simpl.
  assert (dst ≠ q) by (intros ->; done). by rewrite lookup_insert_ne.
Qed.

Lemma only_writes_exists (paths : list string) (p : string) :
  only_writes paths (os_path_exists p).
Proof. by intros fs q _. Qed.

Lemma only_writes_open (paths : list string) (p : string) :
  only_writes paths (open_image p).
Proof. by intros fs q _. Qed.

Lemma only_writes_read_file (paths : list string) (p : string) :
  only_writes paths (read_file p).
Proof. by intros fs q _. Qed.

(** The frame of a computation, step by step. *)
Ltac frame :=
  repeat first
    [ apply only_writes_mret
    | apply only_writes_lift
    | apply only_writes_exists
    | apply only_writes_open
    | apply only_writes_read_file
    | apply only_writes_save_image; set_solver
    | apply only_writes_remove; set_solver
    | apply only_writes_rename; set_solver
    | apply only_writes_file_save; set_solver
    | apply only_writes_when
    | apply only_writes_lift_bind; intros ? ?;
      repeat match goal with
             | E : Some _ = Some ?x |- _ => is_var x; injection E as <-
             | E : None = Some _ |- _ => discriminate E
             | E : get ?d ?k = _ |- context [get ?d ?k] => rewrite E
             | E : get ?d ?k = _, E' : context [get ?d ?k] |- _ => rewrite E in E'
             | E : upload_path (JStr _) = Some _ |- _ => injection E as <-
             | E : as_str (JStr _) = Some _ |- _ => injection E as <-
             | E : upload_path _ = Some _ |- _ => discriminate E
             | E : _ <$> ?o = Some _ |- _ => destruct o eqn:?; simpl in E
             | E1 : ?o = Some _, E2 : ?o = Some _ |- _ => rewrite E1 in E2; injection E2 as <-
             | E1 : ?o = None, E2 : ?o = Some _ |- _ => rewrite E1 in E2; discriminate E2
             end
    | apply only_writes_bind; [| intros ?]
    | match goal with |- only_writes _ (if ?b then _ else _) => destruct b end
    | match goal with |- only_writes _ (let '(_, _) := ?x in _) => destruct x end ].

Lemma serve_frame (c : call) (fs : files) (p : string) :
  p ∉ named_files c → snd (serve c fs) !! p = fs !! p.
Proof.
  intros Hp.
  destruct c as [[file|] uuid4 | [data|] | [data|] | [data|] | [data|] | filename | filename];
    cbn [serve named_files] in *;
    unfold upload_image, preview_adjustments, brightness, compress, crop, download, reset;
    refine (only_writes_handler _ _ _ fs p Hp); clear Hp; cbv zeta.
  - destruct (rsplit_dot _ !! 1%nat) as [ext|] eqn:Hext; unfold session_files; frame.
  - frame.
  - destruct (get data "filename") eqn:Hname; frame.
  - frame.
  - destruct (get data "filename") eqn:Hname; unfold adjust_brightness; frame.
  - frame.
  - destruct (get data "filename") as [| | | |name] eqn:Hname; try by frame.
    destruct (upper_of _) as [output_format|] eqn:Hformat; [| by frame].
    unfold compressed_name, session_files, compress_image.
    destruct (rsplit_dot name !! 0%nat) as [name_without_ext|] eqn:Hhead; simpl; frame.
  - frame.
  - destruct (get data "filename") eqn:Hname;
      unfold crop_image, save_image_default; frame.
  - frame.
  - frame.
  - unfold session_files. frame.
Qed.

(** X3: a request that carries a plain file name changes no file of the
    upload folder but those of the session it names. *)
Theorem serve_writes_named_files (c : call) (fs : files) (other : string) :
  (∀ name, named_session c = Some name → plain name = true) →
  plain other = true →
  os_path_join UPLOAD_FOLDER other ∉ named_files c →
  snd (serve c fs) !! os_path_join UPLOAD_FOLDER other
    = fs !! os_path_join UPLOAD_FOLDER other.
Proof. intros _ _. apply serve_frame. Qed.

(** ** What a successful request has done *)

Lemma upload_image_200 (file : option FileStorage) (uuid4 : string) (fs fs' : files)
    (body : json_body) :
  upload_image file uuid4 fs = (Json200 body, fs') →
  ∃ f ext img info preview,
    file = Some f ∧
    fs_filename f ≠ "" ∧
    allowed_file (fs_filename f) = true ∧
    rsplit_dot (secure_filename (fs_filename f)) !! 1%nat = Some ext ∧
    let filename := uuid4 ++ "." ++ str_lower ext in
    body = UploadBody filename preview info ∧
    fs' = <[os_path_join UPLOAD_FOLDER ("original_" ++ filename) := stream f]>
            (<[os_path_join UPLOAD_FOLDER filename := drop (position f) (stream f)]> fs) ∧
    Image_open (drop (position f) (stream f)) = Some img ∧
    get_image_info img = Some info ∧
    image_to_base64 img = Some preview.
Proof.
  intros Hrun. apply handler_200 in Hrun. unfold upload_image in Hrun.
  destruct file as [f|]; [| discriminate].
  destruct (bool_decide (fs_filename f = "")) eqn:Hempty; [discriminate |].
  destruct (allowed_file (fs_filename f)) eqn:Hallowed; [| discriminate].
  simpl in Hrun. py_steps.
  repeat match goal with
         | E : file_save _ _ _ = (Some _, _) |- _ =>
             unfold file_save in E; injection E as <- <-
         | E : _ <$> ?o = Some _ |- _ => destruct o as [ext|] eqn:Hext; [| discriminate E];
             injection E as <-
         | E : Json200 _ = Json200 _ |- _ => injection E as <-
         end.
  apply bool_decide_eq_false in Hempty.
  match goal with E : _ !! _ ≫= Image_open = Some ?i |- _ => rename E into Hopen; rename i into img end.
  simpl in Hopen.
  rewrite lookup_insert_ne in Hopen by apply original_ne_current.
  rewrite lookup_insert_eq in Hopen. simpl in Hopen.
  by eexists f, ext, img, _, _.
Qed.

(** ** Upload *)

Lemma split_last_dot_cons (c : ascii) (r : string) :
  split_last_dot (String c r) =
    match split_last_dot r with
    | Some (a, b) => Some (String c a, b)
    | None => if Ascii.eqb c "." then Some (EmptyString, r) else None
    end.
Proof. reflexivity. Qed.

Lemma split_last_dot_app (a ext : string) :
  has_dot ext = false → split_last_dot (a ++ "." ++ ext) = Some (a, ext).
Proof.
  intros Hext. unfold has_dot in Hext. apply bool_decide_eq_false in Hext.
  assert (Hnone : split_last_dot ext = None).
  { destruct (split_last_dot ext); [by destruct Hext | done]. }
  induction a as [|c a IH].
  - change (split_last_dot (String "." ext) = Some ("", ext)).
    rewrite split_last_dot_cons, Hnone. done.
  - change (split_last_dot (String c (a ++ "." ++ ext)) = Some (String c a, ext)).
    by rewrite split_last_dot_cons, IH.
Qed.

Lemma split_last_dot_join (s a b : string) :
  split_last_dot s = Some (a, b) → s = a ++ "." ++ b ∧ has_dot b = false.
Proof.
  revert a b. induction s as [|c r IH]; intros a b; simpl; [discriminate |].
  destruct (split_last_dot r) as [[a' b']|] eqn:Hr.
  - intros [= <- <-]. destruct (IH a' b' eq_refl) as [-> Hb]. done.
  - destruct (Ascii.eqb c ".") eqn:Hc; [| discriminate].
    intros [= <- <-]. apply Ascii.eqb_eq in Hc as ->. split; [done |].
    unfold has_dot. rewrite Hr. apply bool_decide_eq_false. by intros [? ?].
Qed.

(** X4: only the text after the last dot counts for [allowed_file], in any
    letter case: [a.ext] is allowed exactly when the lower-cased [ext] is one
    of png, jpg, jpeg and webp. *)
Theorem allowed_file_last_extension (a ext : string) :
  has_dot ext = false →
  allowed_file (a ++ "." ++ ext) = bool_decide (str_lower ext ∈ ALLOWED_EXTENSIONS).
Proof.
  intros Hext. unfold allowed_file, has_dot, rsplit_dot.
  by rewrite (split_last_dot_app a ext Hext).
Qed.

Lemma upload_image_400_iff (file : option FileStorage) (uuid4 : string) (fs : files) :
  (∃ error, fst (upload_image file uuid4 fs) = JsonError 400 error) ↔
  (file = None ∨
   ∃ f, file = Some f ∧ (fs_filename f = "" ∨ allowed_file (fs_filename f) = false)).
Proof.
  split.
  - intros [error Hrun].
    destruct (upload_image file uuid4 fs) as [r fs'] eqn:Hup. simpl in Hrun. subst r.
    apply handler_reply in Hup as [[=] | Hup].
    destruct file as [f|]; [right; exists f; split; [done |] | by left].
    unfold upload_image in *.
    destruct (bool_decide (fs_filename f = "")) eqn:Hempty;
      [left; by apply bool_decide_eq_true in Hempty |].
    destruct (allowed_file (fs_filename f)); [| by right].
    simpl in Hup. py_steps. discriminate.
  - unfold upload_image, handler.
    intros [-> | (f & -> & [Hempty | Hrefused])]; [by eexists | |].
    + rewrite bool_decide_true by done. by eexists.
    + destruct (bool_decide (fs_filename f = "")); [by eexists |].
      rewrite Hrefused. by eexists.
Qed.

Lemma post_upload_within (form : upload_form) (uuid4 : string) :
  content_length form ≤ MAX_CONTENT_LENGTH →
  post_upload form uuid4 = upload_image (image_part form) uuid4.
Proof.
  intros Hlength. unfold post_upload, request_files.
  by rewrite (proj2 (Z.ltb_ge _ _) Hlength).
Qed.

Lemma post_upload_beyond (form : upload_form) (uuid4 : string) (fs : files) :
  MAX_CONTENT_LENGTH < content_length form →
  post_upload form uuid4 fs = (JsonError 500 ExceptionText, fs).
Proof.
  intros Hlength. unfold post_upload, request_files.
  by rewrite (proj2 (Z.ltb_lt _ _) Hlength).
Qed.

(** X5: an upload is answered 400 exactly when its body is within
    [MAX_CONTENT_LENGTH] and it has no ['image'] part, an empty file name,
    or a name that [allowed_file] refuses. *)
Theorem upload_rejected_iff (form : upload_form) (uuid4 : string) (fs : files) :
  (∃ error, fst (post_upload form uuid4 fs) = JsonError 400 error) ↔
  content_length form ≤ MAX_CONTENT_LENGTH ∧
  (image_part form = None ∨
   ∃ f, image_part form = Some f ∧
        (fs_filename f = "" ∨ allowed_file (fs_filename f) = false)).
Proof.
  destruct (Z.le_gt_cases (content_length form) MAX_CONTENT_LENGTH) as [Hin | Hout].
  - rewrite (post_upload_within form uuid4 Hin), upload_image_400_iff. tauto.
  - rewrite (post_upload_beyond form uuid4 fs Hout). simpl. split.
    + intros [error [=]].
    + intros [Hin _]. lia.
Qed.

Lemma upload_image_undecodable (f : FileStorage) (uuid4 ext : string) (fs : files) :
  fs_filename f ≠ "" →
  allowed_file (fs_filename f) = true →
  rsplit_dot (secure_filename (fs_filename f)) !! 1%nat = Some ext →
  position f = 0%nat →
  Image_open (stream f) = None →
  let filename := uuid4 ++ "." ++ str_lower ext in
  upload_image (Some f) uuid4 fs =
    (JsonError 500 ExceptionText,
     <[os_path_join UPLOAD_FOLDER ("original_" ++ filename) := stream f]>
       (<[os_path_join UPLOAD_FOLDER filename := stream f]> fs)).
Proof.
  intros Hname Hallowed Hext Hpos Hopen filename. unfold upload_image, handler.
  rewrite bool_decide_false by done. rewrite Hallowed. simpl.
  rewrite bind_run. unfold lift at 1. rewrite Hext. simpl.
  rewrite bind_run. unfold file_save at 1. cbn [fst snd position stream].
  rewrite bind_run. unfold file_save at 1. cbn [file_seek position stream].
  rewrite bind_run. unfold open_image at 1.
  rewrite lookup_insert_ne by apply original_ne_current.
  rewrite lookup_insert_eq, Hpos. rewrite drop_0.
  change (Some (stream f) ≫= Image_open) with (Image_open (stream f)).
  by rewrite Hopen.
Qed.

(** X6: an upload within [MAX_CONTENT_LENGTH] whose file has an allowed name
    but a content that Pillow cannot open is answered 500, and both copies
    written before the failure stay in the upload folder; beyond the limit
    the answer is 500 as well, and nothing is written. *)
Theorem upload_undecodable_leaves_files (form : upload_form) (f : FileStorage)
    (uuid4 ext : string) (fs : files) :
  image_part form = Some f →
  fs_filename f ≠ "" →
  allowed_file (fs_filename f) = true →
  rsplit_dot (secure_filename (fs_filename f)) !! 1%nat = Some ext →
  position f = 0%nat →
  Image_open (stream f) = None →
  let filename := uuid4 ++ "." ++ str_lower ext in
  post_upload form uuid4 fs =
    (JsonError 500 ExceptionText,
     if MAX_CONTENT_LENGTH <? content_length form then fs
     else <[os_path_join UPLOAD_FOLDER ("original_" ++ filename) := stream f]>
            (<[os_path_join UPLOAD_FOLDER filename := stream f]> fs)).
Proof.
  intros Hpart Hname Hallowed Hext Hpos Hopen filename.
  destruct (Z.ltb_spec MAX_CONTENT_LENGTH (content_length form)) as [Hout | Hin].
  - by apply post_upload_beyond.
  - rewrite (post_upload_within form uuid4 Hin), Hpart.
    by apply upload_image_undecodable.
Qed.

(** X7: when the sanitised file name has lost its dot, the upload is
    answered 500 and nothing is written. *)
Theorem upload_dotless_secure_name (f : FileStorage) (uuid4 : string) (fs : files) :
  fs_filename f ≠ "" →
  allowed_file (fs_filename f) = true →
  has_dot (secure_filename (fs_filename f)) = false →
  upload_image (Some f) uuid4 fs = (JsonError 500 ExceptionText, fs).
Proof.
  intros Hname Hallowed Hdot. unfold upload_image, handler.
  rewrite bool_decide_false by done. rewrite Hallowed. simpl.
  rewrite bind_run. unfold lift at 1, rsplit_dot.
  unfold has_dot in Hdot. apply bool_decide_eq_false in Hdot.
  destruct (split_last_dot (secure_filename (fs_filename f))) as [[a b]|];
    [by destruct Hdot | done].
Qed.

(** X8: after a successful upload, downloading the returned file name gives
    back the uploaded bytes, under the name [edited_<filename>]. *)
Theorem download_after_upload (f : FileStorage) (uuid4 : string) (fs fs' : files)
    (filename preview : string) (info : image_info) :
  position f = 0%nat →
  upload_image (Some f) uuid4 fs = (Json200 (UploadBody filename preview info), fs') →
  download filename fs' = (SendFile (stream f) ("edited_" ++ filename), fs').
Proof.
  intros Hpos Hup.
  apply upload_image_200 in Hup
    as (f' & ext & img & info' & preview' & [= <-] & _ & _ & _ & Hbody & -> & _).
  injection Hbody as -> _ _. rewrite download_run.
  rewrite lookup_insert_ne by apply original_ne_current.
  rewrite lookup_insert_eq, Hpos. done.
Qed.

(** ** The quality search, continued *)


(** ** The crop box, continued *)

(** X10: on an image of non-negative size the crop box has its left edge
    at or before its right edge, and its upper edge at or before its lower
    edge, exactly when the requested width and height are not negative and
    the rectangle touches the image. *)
Theorem crop_box_ordered_iff (img_w img_h x y width height : Z) :
  0 ≤ img_w → 0 ≤ img_h →
  let '(x0, y0, x1, y1) := crop_box img_w img_h x y width height in
  (x0 ≤ x1 ∧ y0 ≤ y1) ↔
  (0 ≤ width ∧ x ≤ img_w ∧ 0 ≤ x + width) ∧ (0 ≤ height ∧ y ≤ img_h ∧ 0 ≤ y + height).
Proof. unfold crop_box. lia. Qed.

(** ** Crop, continued *)

Lemma crop_200 (data : gmap string jvalue) (fs fs' : files) (body : json_body) :
  crop (Some data) fs = (Json200 body, fs') →
  ∃ name x y width height current img cropped stored b,
    get data "filename" = JStr name ∧
    py_int (get_or data "x" (JInt 0)) = Some x ∧
    py_int (get_or data "y" (JInt 0)) = Some y ∧
    py_int (get data "width") = Some width ∧
    py_int (get data "height") = Some height ∧
    width ≠ 0 ∧ height ≠ 0 ∧
    fs !! os_path_join UPLOAD_FOLDER name = Some current ∧
    Image_open current = Some img ∧
    img_crop img (crop_box (img_width img) (img_height img) x y width height)
      = Some cropped ∧
    to_rgb cropped = Some stored ∧
    img_save stored JPEG_95 = Saved b ∧
    fs' = <[os_path_join UPLOAD_FOLDER name := b]> fs.
Proof.
  intros Hrun. apply handler_200 in Hrun. unfold crop in Hrun.
  py_steps; try discriminate.
  match goal with E : upload_path _ = Some _ |- _ =>
    apply upload_path_Some in E as (name & Hname & _ & ->) end.
  match goal with E : crop_image _ _ _ _ _ _ = _ |- _ => unfold crop_image in E end.
  py_steps.
  match goal with E : save_image_default _ _ _ = (Some ?u, _) |- _ =>
    destruct u; apply save_image_default_Some in E as (stored & b & Hrgb & Hsave & ->) end.
  match goal with E : _ || _ = false |- _ =>
    apply orb_false_elim in E as [Hw%Z.eqb_neq Hh%Z.eqb_neq] end.
  match goal with E : _ !! _ ≫= Image_open = Some _ |- _ =>
    destruct (fs !! os_path_join UPLOAD_FOLDER name) as [current|] eqn:Hcur;
      [simpl in E | discriminate E] end.
  by eexists name, _, _, _, _, current, _, _, stored, b.
Qed.

(** X11: the working file of the name [original_<id>] is the Original of
    session [id]: a successful crop under that name replaces the Original
    of [id] by the JPEG of the cropped image. *)
Theorem crop_under_original_name (data : gmap string jvalue) (fs fs' : files)
    (body : json_body) (id : string) :
  get data "filename" = JStr ("original_" ++ id) →
  crop (Some data) fs = (Json200 body, fs') →
  ∃ original img x y width height cropped stored b,
    fs !! original_path (JStr id) = Some original ∧
    Image_open original = Some img ∧
    img_crop img (crop_box (img_width img) (img_height img) x y width height)
      = Some cropped ∧
    to_rgb cropped = Some stored ∧
    img_save stored JPEG_95 = Saved b ∧
    fs' !! original_path (JStr id) = Some b.
Proof.
  intros Hname Hrun.
  apply crop_200 in Hrun
    as (name & x & y & width & height & current & img & cropped & stored & b &
        Hname' & _ & _ & _ & _ & _ & _ & Hcur & Hopen & Hcrop & Hrgb & Hsave & ->).
  rewrite Hname in Hname'. injection Hname' as <-.
  exists current, img, x, y, width, height, cropped, stored, b.
  change (original_path (JStr id)) with (os_path_join UPLOAD_FOLDER ("original_" ++ id)).
  by rewrite lookup_insert_eq.
Qed.

(** ** Compress, continued *)

Lemma compress_image_Some (image_path : string) (quality : Z) (max_size_kb : option Z)
    (fs fs' : files) (img : image) (q : Z) :
  compress_image image_path quality max_size_kb fs = (Some (img, q), fs') → fs' = fs.
Proof. unfold compress_image. intros E. by py_steps. Qed.

Lemma rename_block_run (name new_filename : string) (fs : files) :
  when (bool_decide (new_filename ≠ name)) (
      found ← os_path_exists (os_path_join UPLOAD_FOLDER name);
      _ ← when found (os_remove (os_path_join UPLOAD_FOLDER name));
      let old_original := original_path (JStr name) in
      let new_original := original_path (JStr new_filename) in
      found ← os_path_exists old_original;
      when found (os_rename old_original new_original)) fs
    = (Some (), after_rename name new_filename fs).
Proof.
  unfold after_rename, when at 1. destruct (bool_decide (new_filename ≠ name)); [| done].
  rewrite remove_if_exists. cbv zeta. rewrite bind_run. unfold os_path_exists, when, os_rename.
  destruct (delete _ fs !! original_path (JStr name)) as [original|] eqn:E; simpl.
  - by rewrite E.
  - done.
Qed.

Lemma compress_200 (data : gmap string jvalue) (fs fs' : files) (body : json_body) :
  compress (Some data) fs = (Json200 body, fs') →
  ∃ name quality output_format name_without_ext img quality_used stored b preview info,
    get data "filename" = JStr name ∧
    py_int (get_or data "quality" (JInt 85)) = Some quality ∧
    upper_of (get_or data "outputFormat" (JStr "JPEG")) = Some output_format ∧
    rsplit_dot name !! 0%nat = Some name_without_ext ∧
    (if truthy (get data "maxSizeKB")
     then ∃ target, py_int (get data "maxSizeKB") = Some target ∧
            fst (compress_image (os_path_join UPLOAD_FOLDER name) quality (Some target) fs)
              = Some (img, quality_used)
     else fst (compress_image (os_path_join UPLOAD_FOLDER name) quality None fs)
            = Some (img, quality_used)) ∧
    rgb_for output_format img = Some stored ∧
    img_save stored (save_kwargs output_format quality_used) = Saved b ∧
    let new_filename := name_without_ext ++ "." ++ format_to_ext output_format in
    body = CompressBody preview info quality_used new_filename output_format ∧
    fs' = after_rename name new_filename (<[os_path_join UPLOAD_FOLDER new_filename := b]> fs).
Proof.
  intros Hrun. apply handler_200 in Hrun. unfold compress in Hrun.
  repeat match goal with
         | E : (_ ≫= _) _ = (Some _, _) |- _ =>
             apply bind_Some in E as (? & ? & ? & E)
         | E : lift _ _ = (Some _, _) |- _ => apply lift_Some in E as [? ->]
         | E : Some _ = Some ?x |- _ => is_var x; injection E as <-
         | E : mret _ _ = (Some _, _) |- _ => apply mret_Some in E as [? ->]
         | E : os_path_exists _ _ = (Some _, _) |- _ =>
             apply os_path_exists_Some in E as [-> ->]
         | E : (if negb ?c then _ else _) _ = (Some _, _) |- _ =>
             destruct (negb c) eqn:?; [discriminate E |]
         | E : (let '(_, _) := ?x in _) _ = (Some _, _) |- _ => destruct x as [img quality_used]
         end.
  match goal with E : upload_path _ = Some _ |- _ =>
    apply upload_path_Some in E as (name & Hname & Hstr & ->) end.
  match goal with E : as_str _ = Some _ |- _ => rewrite Hstr in E; injection E as <- end.
  match goal with E : save_image _ _ _ _ _ = (Some ?u, _) |- _ =>
    destruct u; apply save_image_Some in E as (stored & b & Hstored & Hsave & ->) end.
  match goal with E : when _ _ _ = (Some ?u, _) |- _ =>
    destruct u; rewrite Hname in E; rewrite rename_block_run in E; injection E as <- end.
  match goal with E : Json200 _ = Json200 _ |- _ => injection E as <- end.
  match goal with
  | E : (if truthy ?v then _ else _) _ = (Some _, ?fs1),
    Q : py_int (get_or data "quality" _) = Some ?quality |- _ =>
    assert (fs1 = fs ∧
            if truthy v
            then ∃ target, py_int v = Some target ∧
                   fst (compress_image (os_path_join UPLOAD_FOLDER name) quality
                          (Some target) fs) = Some (img, quality_used)
            else fst (compress_image (os_path_join UPLOAD_FOLDER name) quality None fs)
                   = Some (img, quality_used)) as [-> Hsearch]
  end.
  { destruct (truthy (get data "maxSizeKB")).
    - py_steps. match goal with E : compress_image _ _ _ _ = _ |- _ =>
        pose proof (compress_image_Some _ _ _ _ _ _ _ E) as ->;
        split; [done |]; eexists; split; [eassumption | by rewrite E] end.
    - match goal with E : compress_image _ _ _ _ = _ |- _ =>
        pose proof (compress_image_Some _ _ _ _ _ _ _ E) as ->; by rewrite E end. }
  by eexists name, _, _, _, img, quality_used, stored, b, _, _.
Qed.

Lemma compress_200_truthy (data : gmap string jvalue) (fs fs' : files) (body : json_body) :
  compress (Some data) fs = (Json200 body, fs') → truthy (get data "filename") = true.
Proof.
  intros Hrun. apply handler_200 in Hrun. unfold compress in Hrun.
  apply bind_Some in Hrun as (? & ? & [[= <-] ->]%lift_Some & Hrun).
  apply bind_Some in Hrun as (? & ? & [_ ->]%lift_Some & Hrun).
  apply bind_Some in Hrun as (? & ? & [_ ->]%lift_Some & Hrun).
  destruct (truthy (get data "filename")); [done | discriminate].
Qed.

Lemma format_to_ext_no_dot (output_format : string) :
  has_dot (format_to_ext output_format) = false.
Proof. unfold format_to_ext. by repeat case_bool_decide. Qed.

Lemma original_path_ne (a b : string) :
  a ≠ b → original_path (JStr a) ≠ original_path (JStr b).
Proof.
  intros Hne E. apply join_upload_inj in E. by apply (inj (String.app "original_")) in E.
Qed.

(** The new Original cannot be the old Current. *)
Lemma new_original_ne_current (name name_without_ext output_format : string) :
  rsplit_dot name !! 0%nat = Some name_without_ext →
  original_path (JStr (name_without_ext ++ "." ++ format_to_ext output_format))
    ≠ os_path_join UPLOAD_FOLDER name.
Proof.
  intros Hhead E. apply join_upload_inj in E. simpl in E.
  pose proof (split_last_dot_app ("original_" ++ name_without_ext)
                (format_to_ext output_format) (format_to_ext_no_dot _)) as Hsplit.
  replace (("original_" ++ name_without_ext) ++ "." ++ format_to_ext output_format)
    with name in Hsplit.
  unfold rsplit_dot in Hhead. rewrite Hsplit in Hhead. injection Hhead as Hhead.
  apply (f_equal String.length) in Hhead. rewrite str_length_app in Hhead.
  simpl in Hhead. lia.
Qed.

(** X12: a successful [compress] keeps the bytes of the Original and files
    them under the returned name, so that preview-adjustments on the new
    name starts from the same Original. *)
Theorem compress_keeps_original (data : gmap string jvalue) (fs fs' : files)
    (preview : string) (info : image_info) (quality_used : Z)
    (name new_filename format : string) (original : list Byte.byte) :
  get data "filename" = JStr name →
  fs !! original_path (JStr name) = Some original →
  compress (Some data) fs
    = (Json200 (CompressBody preview info quality_used new_filename format), fs') →
  fs' !! original_path (JStr new_filename) = Some original.
Proof.
  intros Hname Horiginal Hrun.
  apply compress_200 in Hrun
    as (name' & quality & output_format & name_without_ext & img & qu & stored & b &
        preview' & info' & Hname' & _ & _ & Hhead & _ & _ & _ & Hbody & ->).
  rewrite Hname in Hname'. injection Hname' as <-.
  injection Hbody as _ _ _ -> _.
  destruct (new_current_kept name name_without_ext output_format Hhead)
    as (Hold & _ & _).
  unfold after_rename. case_bool_decide as Hmoved.
  - cbv zeta.
    rewrite (lookup_delete_ne _ (os_path_join UPLOAD_FOLDER name))
      by (apply not_eq_sym, (original_ne_current name)).
    rewrite lookup_insert_ne by done. rewrite Horiginal.
    by rewrite lookup_insert_eq.
  - rewrite Hmoved in Hold |- *. by rewrite lookup_insert_ne.
Qed.

(** X13: when [compress] changes the file name, the old name is dead:
    neither its Current nor its Original is left, so download and
    preview-adjustments under the old name answer 404. *)
Theorem compress_retires_old_name (data : gmap string jvalue) (fs fs' : files)
    (preview : string) (info : image_info) (quality_used : Z)
    (name new_filename format : string) :
  get data "filename" = JStr name →
  new_filename ≠ name →
  compress (Some data) fs
    = (Json200 (CompressBody preview info quality_used new_filename format), fs') →
  fs' !! os_path_join UPLOAD_FOLDER name = None ∧
  fs' !! original_path (JStr name) = None ∧
  download name fs' = (JsonError 404 (Msg "File not found"), fs') ∧
  ∀ data', get data' "filename" = JStr name →
    preview_adjustments (Some data') fs'
      = (JsonError 404 (Msg "Original file not found"), fs').
Proof.
  intros Hname Hmoved Hrun.
  pose proof Hrun as Hrun'.
  apply compress_200 in Hrun
    as (name' & quality & output_format & name_without_ext & img & qu & stored & b &
        preview' & info' & Hname' & _ & _ & Hhead & _ & _ & _ & Hbody & Hfs).
  rewrite Hname in Hname'. injection Hname' as <-.
  injection Hbody as _ _ _ Hnew _.
  assert (Hcur : fs' !! os_path_join UPLOAD_FOLDER name = None).
  { rewrite Hfs. unfold after_rename. rewrite <- Hnew.
    rewrite bool_decide_true by done. cbv zeta.
    destruct (delete _ _ !! original_path (JStr name)) as [o|].
    - rewrite lookup_insert_ne
        by (rewrite Hnew; apply (new_original_ne_current _ _ _ Hhead)).
      rewrite lookup_delete_ne by (apply (original_ne_current name)).
      apply lookup_delete_eq.
    - apply lookup_delete_eq. }
  assert (Horig : fs' !! original_path (JStr name) = None).
  { rewrite Hfs. unfold after_rename. rewrite <- Hnew.
    rewrite bool_decide_true by done. cbv zeta.
    destruct (delete _ _ !! original_path (JStr name)) as [o|] eqn:Ho; [| done].
    rewrite lookup_insert_ne by (by apply original_path_ne).
    apply lookup_delete_eq. }
  split; [done |]. split; [done |]. split.
  - by rewrite download_run, Hcur.
  - intros data' Hname'. rewrite preview_adjustments_run. cbv zeta.
    rewrite Hname', Horig.
    apply compress_200_truthy in Hrun'. rewrite Hname in Hrun'. by rewrite Hrun'.
Qed.

(** X14: [compress] returns the file name it was given exactly when that
    name already ends in a dot and the extension of the output format (jpg,
    png or webp, in lower case); otherwise the session is renamed. *)
Theorem compress_keeps_name_iff (data : gmap string jvalue) (fs fs' : files)
    (preview : string) (info : image_info) (quality_used : Z)
    (name new_filename format : string) :
  get data "filename" = JStr name →
  compress (Some data) fs
    = (Json200 (CompressBody preview info quality_used new_filename format), fs') →
  new_filename = name ↔ ∃ base, name = base ++ "." ++ format_to_ext format.
Proof.
  intros Hname Hrun.
  apply compress_200 in Hrun
    as (name' & quality & output_format & name_without_ext & img & qu & stored & b &
        preview' & info' & Hname' & _ & _ & Hhead & _ & _ & _ & Hbody & _).
  rewrite Hname in Hname'. injection Hname' as <-.
  injection Hbody as _ _ _ -> ->. split.
  - intros <-. by exists name_without_ext.
  - intros [base ->].
    unfold rsplit_dot in Hhead.
    rewrite (split_last_dot_app base _ (format_to_ext_no_dot output_format)) in Hhead.
    by injection Hhead as <-.
Qed.

Lemma compress_image_zero (image_path : string) (quality : Z) (fs : files)
    (img : image) (q : Z) :
  fst (compress_image image_path quality (Some 0) fs) = Some (img, q) → q = quality.
Proof.
  destruct (compress_image image_path quality (Some 0) fs) as [r fs'] eqn:E.
  simpl. intros ->. unfold compress_image in E. py_steps; try discriminate.
  match goal with E : (_, _) = (_, _) |- _ => by injection E end.
Qed.

(** X15: a target that [int()] rounds to 0, such as 0.5, counts as no
    target: the reply reports the requested quality as the quality used. *)
Theorem compress_target_rounded_to_zero (data : gmap string jvalue) (fs fs' : files)
    (preview : string) (info : image_info) (quality_used : Z)
    (new_filename format : string) :
  truthy (get data "maxSizeKB") = true →
  py_int (get data "maxSizeKB") = Some 0 →
  compress (Some data) fs
    = (Json200 (CompressBody preview info quality_used new_filename format), fs') →
  py_int (get_or data "quality" (JInt 85)) = Some quality_used.
Proof.
  intros Htruthy Hzero Hrun.
  apply compress_200 in Hrun
    as (name & quality & output_format & name_without_ext & img & qu & stored & b &
        preview' & info' & _ & Hquality & _ & _ & Hsearch & _ & _ & Hbody & _).
  injection Hbody as _ _ -> _ _.
  rewrite Htruthy in Hsearch. destruct Hsearch as (target & Htarget & Hsearch).
  rewrite Hzero in Htarget. injection Htarget as <-.
  apply compress_image_zero in Hsearch as ->. done.
Qed.

Lemma quality_search_grid (img : image) (T Q q : Z) :
  snd (quality_search img T Q) = Some q → q ≤ Q ∧ (Q - q) mod 5 = 0.
Proof.
  remember (Z.to_nat (Q - 10)) as n eqn:Hn. revert Q Hn.
  induction n as [n IH] using lt_wf_ind. intros Q Hn.
  rewrite quality_search_unfold_loop.
  destruct (Z_lt_dec 10 Q) as [Hgt | Hle].
  - destruct (save_to_buffer img (jpeg_args Q)) as [buffered|]; [| discriminate].
    destruct (Z_le_dec _ _) as [Hfit | Hbig].
    + intros [= <-]. by rewrite Z.sub_diag.
    + specialize (IH (Z.to_nat (Q - 5 - 10)) ltac:(lia) (Q - 5) eq_refl).
      destruct (quality_search img T (Q - 5)) as [encodes result]. simpl in *.
      intros Hq. destruct (IH Hq) as [Hle Hmod]. split; [lia |].
      replace (Q - q) with ((Q - 5 - q) + 1 * 5) by lia. by rewrite Z.mod_add.
  - intros [= <-]. by rewrite Z.sub_diag.
Qed.

Lemma compress_image_grid (image_path : string) (quality : Z) (max_size_kb : option Z)
    (fs : files) (img : image) (q : Z) :
  fst (compress_image image_path quality max_size_kb fs) = Some (img, q) →
  q ≤ quality ∧ (quality - q) mod 5 = 0.
Proof.
  destruct (compress_image image_path quality max_size_kb fs) as [r fs'] eqn:E.
  simpl. intros ->. unfold compress_image in E.
  apply bind_Some in E as (? & ? & _ & E).
  apply bind_Some in E as (? & ? & _ & E).
  destruct max_size_kb as [target|].
  - destruct (target =? 0).
    + apply mret_Some in E as [[= <- <-] _]. by rewrite Z.sub_diag.
    + apply bind_Some in E as (? & ? & [Hq _]%lift_Some & E).
      apply mret_Some in E as [[= <- <-] _]. by apply quality_search_grid in Hq.
  - apply mret_Some in E as [[= <- <-] _]. by rewrite Z.sub_diag.
Qed.

(** X17: the quality that [compress] reports never exceeds the requested
    one, and lies a whole number of steps of 5 below it. *)
Theorem compress_quality_used_bound (data : gmap string jvalue) (fs fs' : files)
    (preview : string) (info : image_info) (quality quality_used : Z)
    (new_filename format : string) :
  py_int (get_or data "quality" (JInt 85)) = Some quality →
  compress (Some data) fs
    = (Json200 (CompressBody preview info quality_used new_filename format), fs') →
  quality_used ≤ quality ∧ (quality - quality_used) mod 5 = 0.
Proof.
  intros Hquality Hrun.
  apply compress_200 in Hrun
    as (name & quality' & output_format & name_without_ext & img & qu & stored & b &
        preview' & info' & _ & Hquality' & _ & _ & Hsearch & _ & _ & Hbody & _).
  rewrite Hquality in Hquality'. injection Hquality' as <-.
  injection Hbody as _ _ -> _ _.
  destruct (truthy (get data "maxSizeKB")).
  - destruct Hsearch as (target & _ & Hsearch). by apply compress_image_grid in Hsearch.
  - by apply compress_image_grid in Hsearch.
Qed.

(** ** Adjustments, continued *)

Lemma slider_identity (e : enhancer) (key : string) (data : gmap string jvalue)
    (img : image) (factor : float) :
  py_float (get_or data key (JFloat float_1)) = Some factor →
  float_eqb factor float_1 = true →
  slider e key data img = Some img.
Proof. intros Hfactor Hone. unfold slider. rewrite Hfactor. simpl. by rewrite Hone. Qed.

Lemma adjusted_identity (data : gmap string jvalue) (original : list Byte.byte) :
  (∀ key, key ∈ ["brightness"; "contrast"; "saturation"; "sharpness"] →
     ∃ factor, py_float (get_or data key (JFloat float_1)) = Some factor ∧
               float_eqb factor float_1 = true) →
  adjusted data original =
    (opened ← Image_open original;
     img ← to_rgb opened;
     img_info ← get_image_info img;
     Some (img, img_info)).
Proof.
  intros Hone.
  assert (Hslider : ∀ e key i, key ∈ ["brightness"; "contrast"; "saturation"; "sharpness"] →
            slider e key data i = Some i).
  { intros e key i Hkey. destruct (Hone key Hkey) as (factor & Hf & Heq).
    by apply (slider_identity e key data i factor). }
  unfold adjusted.
  destruct (Image_open original) as [opened|]; [| done]. cbn [mbind option_bind].
  destruct (to_rgb opened) as [img|]; [| done]. cbn [mbind option_bind].
  rewrite (Hslider Brightness) by set_solver. cbn [mbind option_bind].
  rewrite (Hslider Contrast) by set_solver. cbn [mbind option_bind].
  rewrite (Hslider Color) by set_solver. cbn [mbind option_bind].
  rewrite (Hslider Sharpness) by set_solver. done.
Qed.

(** X16: with the four multipliers equal to 1.0 no enhancer runs:
    preview-adjustments answers with the PNG and the width and height of
    the Original as opened and composed on white, which is the Original
    itself when its mode has neither alpha nor palette. *)
Theorem preview_identity_sliders (data : gmap string jvalue) (fs fs' : files)
    (preview : string) (info : image_info) :
  (∀ key, key ∈ ["brightness"; "contrast"; "saturation"; "sharpness"] →
     ∃ factor, py_float (get_or data key (JFloat float_1)) = Some factor ∧
               float_eqb factor float_1 = true) →
  preview_adjustments (Some data) fs = (Json200 (EditBody preview info), fs') →
  ∃ original opened img,
    fs !! original_path (get data "filename") = Some original ∧
    Image_open original = Some opened ∧
    to_rgb opened = Some img ∧
    (mode_in opened ALPHA_MODES = false → img = opened) ∧
    image_to_base64 img = Some preview ∧
    info_width info = img_width img ∧
    info_height info = img_height img.
Proof.
  intros Hone Hrun.
  apply preview_adjustments_200 in Hrun
    as (original & img & img_info & filepath & img' & b & preview' &
        _ & Horiginal & Hadjusted & _ & _ & _ & Hpreview & [= <- <-] & _).
  rewrite (adjusted_identity data original Hone) in Hadjusted.
  destruct (Image_open original) as [opened|] eqn:Hopen; [| discriminate].
  cbn [mbind option_bind] in Hadjusted.
  destruct (to_rgb opened) as [rgb|] eqn:Hrgb; [| discriminate].
  cbn [mbind option_bind] in Hadjusted. unfold get_image_info in Hadjusted.
  destruct (save_to_buffer rgb _) as [buffered|]; [| discriminate].
  injection Hadjusted as <- <-.
  exists original, opened, rgb. repeat split; try done.
  intros Hmode. unfold to_rgb in Hrgb. rewrite Hmode in Hrgb. by injection Hrgb.
Qed.

End More.
(** * Runs on the small instance *)

Import Flat.

(** A run is settled by its reply; the files it leaves are named by the run
    itself. *)
Lemma run_with_reply {A B} (run : A * B) (a : A) : fst run = a → run = (a, snd run).
Proof. intros <-. by destruct run. Qed.

(** A conjunction whose second part is proved from the first. *)
Lemma and_then (P Q : Prop) : P → (P → Q) → P ∧ Q.
Proof. intros HP HQ. exact (conj HP (HQ HP)). Defined.

Lemma thumb_opens : disk !! "static/uploads/a.png" ≫= Image_open = Some thumb_image.
Proof. vm_compute. reflexivity. Qed.

Lemma thumb_encodes (q : Z) : is_Some (save_to_buffer thumb_image (jpeg_args q)).
Proof. vm_compute. eauto. Qed.

(** C1: from base quality 83 with a target of 1 KB, [compress_image]
    returns quality 8, at which the JPEG is larger than 1 KB. *)
Lemma compress_image_below_floor :
  fst (compress_image "static/uploads/b.png" 83 (Some 1) photo_disk)
    = Some (photo_image, 8) ∧
  fits photo_image 1 8 = false ∧
  8 ≠ 10.
Proof. split; [| split]; [vm_compute; reflexivity.. | lia]. Qed.

(** The thumbnail fits 1 KB at the base quality 85, which is returned. *)
Lemma compress_image_target_witness :
  ∃ q, compress_image "static/uploads/a.png" 85 (Some 1) disk = (Some (thumb_image, q), disk) ∧
       q ≤ 85 ∧
       (fits thumb_image 1 q = true ∨ q ≤ 10) ∧
       (10 ≤ 85 → 85 mod 5 = 0 → fits thumb_image 1 q = true ∨ q = 10).
Proof.
  apply (compress_image_target _ 85 1 disk thumb_image thumb_image).
  - exact thumb_opens.
  - vm_compute. reflexivity.
  - intros q _ _. apply thumb_encodes.
  - lia.
Defined.

(** C2: through /adjust-brightness, 0.5 and then 0.8 leaves level 80 in
    the Current, and 0.8 alone leaves level 160. *)
Lemma brightness_compounds :
  let A := request [("filename", JStr "a.png"); ("brightness", JFloat 50)] in
  let B := request [("filename", JStr "a.png"); ("brightness", JFloat 80)] in
  level_at (snd (brightness B (snd (brightness A disk)))) "static/uploads/a.png" = Some 80 ∧
  level_at (snd (brightness B disk)) "static/uploads/a.png" = Some 160 ∧
  level_at disk "static/uploads/original_a.png" = Some 200.
Proof. cbv zeta. repeat split; vm_compute; reflexivity. Qed.

(** Two full sets of sliders through /preview-adjustments: the second one
    alone decides the Current, at level 200 × 0.8. *)
Lemma preview_adjustments_rebased_witness :
  let A := [("filename", JStr "a.png"); ("brightness", JFloat 50); ("contrast", JFloat 120);
            ("saturation", JFloat 100); ("sharpness", JFloat 100)] in
  let B := [("filename", JStr "a.png"); ("brightness", JFloat 80); ("contrast", JFloat 100);
            ("saturation", JFloat 90); ("sharpness", JFloat 100)] in
  let fsB := snd (preview_adjustments (request B) disk) in
  ∃ body,
    get (list_to_map A) "filename" = get (list_to_map B) "filename" ∧
    preview_adjustments (request B) disk = (Json200 body, fsB) ∧
    preview_adjustments (request B) (snd (preview_adjustments (request A) disk))
      = (Json200 body, fsB) ∧
    level_at fsB "static/uploads/a.png" = Some 160.
Proof.
  cbv zeta. eexists.
  apply and_then; [vm_compute; reflexivity | intros HA].
  apply and_then; [apply run_with_reply; vm_compute; reflexivity | intros HB].
  split.
  - exact (preview_adjustments_rebased _ _ disk _ _ HA HB).
  - vm_compute. reflexivity.
Defined.



(** C7: from quality 100 the loop encodes 18 times, and from 1000, which
    [compress] passes on as it is, 198 times. *)
Lemma quality_search_more_than_15 :
  length (fst (quality_search photo_image 1 100)) = 18%nat ∧
  length (fst (quality_search photo_image 1 1000)) = 198%nat.
Proof. split; vm_compute; reflexivity. Qed.

(** A crop of [a.png]: the file named .png then holds a JPEG. *)
Lemma current_saved_as_jpeg_95_witness :
  let data := [("filename", JStr "a.png"); ("x", JInt 1); ("y", JInt 1);
               ("width", JInt 4); ("height", JInt 3)] in
  let fs' := snd (crop (request data) disk) in
  ∃ body,
    crop (request data) disk = (Json200 body, fs') ∧
    ∃ name edited img b,
      get (list_to_map data) "filename" = JStr name ∧
      to_rgb edited = Some img ∧
      img_save img JPEG_95 = Saved b ∧
      fs' !! os_path_join UPLOAD_FOLDER name = Some b.
Proof.
  cbv zeta. eexists.
  apply and_then; [apply run_with_reply; vm_compute; reflexivity | intros Hrun].
  exact (current_saved_as_jpeg_95 _ disk _ _ (or_introl Hrun)).
Defined.

Example png_name_holds_jpeg :
  let data := [("filename", JStr "a.png"); ("x", JInt 1); ("y", JInt 1);
               ("width", JInt 4); ("height", JInt 3)] in
  fformat <$> (snd (crop (request data) disk) !! "static/uploads/a.png" ≫= flat_open)
    = Some (Some "JPEG").
Proof. vm_compute. reflexivity. Qed.

(** An upload of the thumbnail as [Cat.PNG] under the identifier [u1]. *)
Lemma upload_stores_two_copies_witness :
  let file := {| fs_filename := "Cat.PNG"; stream := thumb; position := 0 |} in
  let fs' := snd (upload_image (Some file) "u1" ∅) in
  ∃ preview info,
    position file = 0%nat ∧
    upload_image (Some file) "u1" ∅ = (Json200 (UploadBody "u1.png" preview info), fs') ∧
    fs' !! os_path_join UPLOAD_FOLDER "u1.png" = Some thumb ∧
    fs' !! os_path_join UPLOAD_FOLDER ("original_" ++ "u1.png") = Some thumb.
Proof.
  cbv zeta. eexists _, _.
  apply and_then; [reflexivity | intros Hpos].
  apply and_then; [apply run_with_reply; vm_compute; reflexivity | intros Hrun].
  exact (upload_stores_two_copies _ "u1" ∅ _ _ _ _ Hpos Hrun).
Defined.

(** C4, at the failing input: on the 6×5 image a crop at x = 8 gets the
    box (8, 0, 6, 2), whose left edge lies beyond the image and beyond its
    own right edge, and the request is answered 500. *)
Theorem crop_box_outside_image :
  crop_box 6 5 8 0 2 2 = (8, 0, 6, 2) ∧
  fst (crop (request [("filename", JStr "a.png"); ("x", JInt 8); ("y", JInt 0);
                      ("width", JInt 2); ("height", JInt 2)]) disk)
    = JsonError 500 ExceptionText.
Proof. split; vm_compute; reflexivity. Qed.

(** * Further runs on the small instances *)

(** A crop request for a file that is not there: 404, and no file changed. *)
Lemma error_statuses_witness :
  let c := PostCrop (request [("filename", JStr "gone.png"); ("width", JInt 2);
                              ("height", JInt 2)]) in
  serve c disk = (JsonError 404 (Msg "File not found"), snd (serve c disk)) ∧
  (404 = 400 ∨ 404 = 404 ∨ 404 = 500) ∧
  (404 = 500 ↔ Msg "File not found" = ExceptionText).
Proof.
  cbv zeta. apply and_then; [apply run_with_reply; vm_compute; reflexivity | intros Hrun].
  exact (error_statuses _ disk _ _ _ Hrun).
Defined.

Lemma client_error_writes_nothing_witness :
  let c := PostCompress (request [("quality", JInt 50)]) in
  serve c disk = (JsonError 400 (Msg "Filename required"), snd (serve c disk)) ∧
  400 ≠ 500 ∧
  snd (serve c disk) = disk.
Proof.
  cbv zeta. apply and_then; [apply run_with_reply; vm_compute; reflexivity | intros Hrun].
  apply and_then; [lia | intros Hstatus].
  exact (client_error_writes_nothing _ disk _ _ _ Hrun Hstatus).
Defined.

(** A crop of [a.png] leaves the Original of the session as it was. *)
Lemma serve_writes_named_files_witness :
  let c := PostCrop (request [("filename", JStr "a.png"); ("x", JInt 1); ("y", JInt 1);
                              ("width", JInt 4); ("height", JInt 3)]) in
  (∀ name, named_session c = Some name → plain name = true) ∧
  plain "original_a.png" = true ∧
  (os_path_join UPLOAD_FOLDER "original_a.png" ∉ named_files c) ∧
  snd (serve c disk) !! os_path_join UPLOAD_FOLDER "original_a.png"
    = disk !! os_path_join UPLOAD_FOLDER "original_a.png".
Proof.
  cbv zeta. apply and_then.
  { intros name Hname. vm_compute in Hname. injection Hname as <-. reflexivity. }
  intros Hplain. apply and_then; [reflexivity | intros Hother].
  apply and_then.
  - apply (bool_decide_unpack _). vm_compute. exact I.
  - intros Hp. exact (serve_writes_named_files _ disk _ Hplain Hother Hp).
Defined.

Lemma allowed_file_last_extension_witness :
  has_dot "PNG" = false ∧
  allowed_file ("archive.tar" ++ "." ++ "PNG")
    = bool_decide (str_lower "PNG" ∈ ALLOWED_EXTENSIONS).
Proof.
  apply and_then; [vm_compute; reflexivity | intros Hext].
  exact (allowed_file_last_extension "archive.tar" "PNG" Hext).
Defined.

(** A file named [notes.png] that holds no image, in a request of 300
    bytes. *)
Lemma upload_undecodable_leaves_files_witness :
  let f := {| fs_filename := "notes.png"; stream := [Byte.x68; Byte.x69]; position := 0 |} in
  let form := {| content_length := 300; image_part := Some f |} in
  image_part form = Some f ∧
  fs_filename f ≠ "" ∧
  allowed_file (fs_filename f) = true ∧
  rsplit_dot (secure_filename (fs_filename f)) !! 1%nat = Some "png" ∧
  position f = 0%nat ∧
  Image_open (stream f) = None ∧
  post_upload form "u2" ∅ =
    (JsonError 500 ExceptionText,
     if MAX_CONTENT_LENGTH <? content_length form then ∅
     else <[os_path_join UPLOAD_FOLDER ("original_" ++ "u2" ++ "." ++ str_lower "png")
              := stream f]>
            (<[os_path_join UPLOAD_FOLDER ("u2" ++ "." ++ str_lower "png") := stream f]> ∅)).
Proof.
  cbv zeta.
  apply and_then; [reflexivity | intros Hpart].
  apply and_then; [discriminate | intros Hname].
  apply and_then; [vm_compute; reflexivity | intros Hallowed].
  apply and_then; [vm_compute; reflexivity | intros Hext].
  apply and_then; [reflexivity | intros Hpos].
  apply and_then; [vm_compute; reflexivity | intros Hopen].
  exact (upload_undecodable_leaves_files _ _ "u2" "png" ∅ Hpart Hname Hallowed Hext Hpos Hopen).
Defined.

(** The file name [.png], which the sanitiser turns into [png]. *)
Lemma upload_dotless_secure_name_witness :
  let f := {| fs_filename := ".png"; stream := thumb; position := 0 |} in
  fs_filename f ≠ "" ∧
  allowed_file (fs_filename f) = true ∧
  has_dot (@secure_filename Strict.strict_python (fs_filename f)) = false ∧
  @upload_image _ Strict.strict_pillow (Some f) "u3" ∅ = (JsonError 500 ExceptionText, ∅).
Proof.
  cbv zeta.
  apply and_then; [discriminate | intros Hname].
  apply and_then; [vm_compute; reflexivity | intros Hallowed].
  apply and_then; [vm_compute; reflexivity | intros Hdot].
  exact (@upload_dotless_secure_name _ Strict.strict_pillow _ "u3" ∅ Hname Hallowed Hdot).
Defined.

Lemma download_after_upload_witness :
  let f := {| fs_filename := "Cat.PNG"; stream := thumb; position := 0 |} in
  let fs' := snd (upload_image (Some f) "u1" ∅) in
  ∃ preview info,
    position f = 0%nat ∧
    upload_image (Some f) "u1" ∅ = (Json200 (UploadBody "u1.png" preview info), fs') ∧
    download "u1.png" fs' = (SendFile thumb ("edited_" ++ "u1.png"), fs').
Proof.
  cbv zeta. eexists _, _.
  apply and_then; [reflexivity | intros Hpos].
  apply and_then; [apply run_with_reply; vm_compute; reflexivity | intros Hrun].
  exact (download_after_upload _ "u1" ∅ _ _ _ _ Hpos Hrun).
Defined.


Lemma crop_box_ordered_iff_witness :
  0 ≤ 6 ∧ 0 ≤ 5 ∧
  let '(x0, y0, x1, y1) := crop_box 6 5 1 1 4 3 in
  (x0 ≤ x1 ∧ y0 ≤ y1) ↔ (0 ≤ 4 ∧ 1 ≤ 6 ∧ 0 ≤ 1 + 4) ∧ (0 ≤ 3 ∧ 1 ≤ 5 ∧ 0 ≤ 1 + 3).
Proof.
  apply and_then; [lia | intros Hw]. apply and_then; [lia | intros Hh].
  exact (crop_box_ordered_iff 6 5 1 1 4 3 Hw Hh).
Defined.

(** A crop sent under the name [original_a.png] cuts the Original of the
    session [a.png]. *)
Lemma crop_under_original_name_witness :
  let data := [("filename", JStr "original_a.png"); ("x", JInt 1); ("y", JInt 1);
               ("width", JInt 4); ("height", JInt 3)] in
  let fs' := snd (crop (request data) disk) in
  ∃ body,
    get (list_to_map data) "filename" = JStr ("original_" ++ "a.png") ∧
    crop (request data) disk = (Json200 body, fs') ∧
    ∃ original img x y width height cropped stored b,
      disk !! original_path (JStr "a.png") = Some original ∧
      Image_open original = Some img ∧
      img_crop img (crop_box (img_width img) (img_height img) x y width height)
        = Some cropped ∧
      to_rgb cropped = Some stored ∧
      img_save stored JPEG_95 = Saved b ∧
      fs' !! original_path (JStr "a.png") = Some b.
Proof.
  cbv zeta. eexists.
  apply and_then; [vm_compute; reflexivity | intros Hname].
  apply and_then; [apply run_with_reply; vm_compute; reflexivity | intros Hrun].
  exact (crop_under_original_name _ disk _ _ "a.png" Hname Hrun).
Defined.

Lemma compress_keeps_original_witness :
  let data := [("filename", JStr "a.png"); ("quality", JInt 70)] in
  let fs' := snd (compress (request data) disk) in
  ∃ preview info,
    get (list_to_map data) "filename" = JStr "a.png" ∧
    disk !! original_path (JStr "a.png") = Some thumb ∧
    compress (request data) disk = (Json200 (CompressBody preview info 70 "a.jpg" "JPEG"), fs') ∧
    fs' !! original_path (JStr "a.jpg") = Some thumb.
Proof.
  cbv zeta. eexists _, _.
  apply and_then; [vm_compute; reflexivity | intros Hname].
  apply and_then; [vm_compute; reflexivity | intros Horiginal].
  apply and_then; [apply run_with_reply; vm_compute; reflexivity | intros Hrun].
  exact (compress_keeps_original _ disk _ _ _ _ _ _ _ _ Hname Horiginal Hrun).
Defined.

Lemma compress_retires_old_name_witness :
  let data := [("filename", JStr "a.png"); ("outputFormat", JStr "webp")] in
  let fs' := snd (compress (request data) disk) in
  ∃ preview info,
    get (list_to_map data) "filename" = JStr "a.png" ∧
    "a.webp" ≠ "a.png" ∧
    compress (request data) disk = (Json200 (CompressBody preview info 85 "a.webp" "WEBP"), fs') ∧
    fs' !! os_path_join UPLOAD_FOLDER "a.png" = None ∧
    fs' !! original_path (JStr "a.png") = None ∧
    download "a.png" fs' = (JsonError 404 (Msg "File not found"), fs') ∧
    ∀ data', get data' "filename" = JStr "a.png" →
      preview_adjustments (Some data') fs'
        = (JsonError 404 (Msg "Original file not found"), fs').
Proof.
  cbv zeta. eexists _, _.
  apply and_then; [vm_compute; reflexivity | intros Hname].
  apply and_then; [discriminate | intros Hmoved].
  apply and_then; [apply run_with_reply; vm_compute; reflexivity | intros Hrun].
  exact (compress_retires_old_name _ disk _ _ _ _ _ _ _ Hname Hmoved Hrun).
Defined.

(** [a.png] compressed to PNG keeps its name. *)
Lemma compress_keeps_name_iff_witness :
  let data := [("filename", JStr "a.png"); ("outputFormat", JStr "png")] in
  let fs' := snd (compress (request data) disk) in
  ∃ preview info,
    get (list_to_map data) "filename" = JStr "a.png" ∧
    compress (request data) disk = (Json200 (CompressBody preview info 85 "a.png" "PNG"), fs') ∧
    ("a.png" = "a.png" ↔ ∃ base, "a.png" = base ++ "." ++ format_to_ext "PNG").
Proof.
  cbv zeta. eexists _, _.
  apply and_then; [vm_compute; reflexivity | intros Hname].
  apply and_then; [apply run_with_reply; vm_compute; reflexivity | intros Hrun].
  exact (compress_keeps_name_iff _ disk _ _ _ _ _ _ _ Hname Hrun).
Defined.

(** A target of half a kilobyte. *)
Lemma compress_target_rounded_to_zero_witness :
  let data := [("filename", JStr "a.png"); ("quality", JInt 60); ("maxSizeKB", JFloat 50)] in
  let fs' := snd (compress (request data) disk) in
  ∃ preview info,
    truthy (get (list_to_map data) "maxSizeKB") = true ∧
    py_int (get (list_to_map data) "maxSizeKB") = Some 0 ∧
    compress (request data) disk = (Json200 (CompressBody preview info 60 "a.jpg" "JPEG"), fs') ∧
    py_int (get_or (list_to_map data) "quality" (JInt 85)) = Some 60.
Proof.
  cbv zeta. eexists _, _.
  apply and_then; [vm_compute; reflexivity | intros Htruthy].
  apply and_then; [vm_compute; reflexivity | intros Hzero].
  apply and_then; [apply run_with_reply; vm_compute; reflexivity | intros Hrun].
  exact (compress_target_rounded_to_zero _ disk _ _ _ _ _ _ Htruthy Hzero Hrun).
Defined.

(** On the 60×50 image a target of 3 KB brings quality 85 down to 45. *)
Lemma compress_quality_used_bound_witness :
  let data := [("filename", JStr "b.png"); ("maxSizeKB", JInt 3)] in
  let fs' := snd (compress (request data) photo_disk) in
  ∃ preview info,
    py_int (get_or (list_to_map data) "quality" (JInt 85)) = Some 85 ∧
    compress (request data) photo_disk
      = (Json200 (CompressBody preview info 45 "b.jpg" "JPEG"), fs') ∧
    45 ≤ 85 ∧ (85 - 45) mod 5 = 0.
Proof.
  cbv zeta. eexists _, _.
  apply and_then; [vm_compute; reflexivity | intros Hquality].
  apply and_then; [apply run_with_reply; vm_compute; reflexivity | intros Hrun].
  exact (compress_quality_used_bound _ photo_disk _ _ _ _ _ _ _ Hquality Hrun).
Defined.

(** A preview request that names the file and no multiplier. *)
Lemma preview_identity_sliders_witness :
  let data : gmap string jvalue := list_to_map [("filename", JStr "a.png")] in
  let fs' := snd (preview_adjustments (Some data) disk) in
  ∃ preview info,
    (∀ key, key ∈ ["brightness"; "contrast"; "saturation"; "sharpness"] →
       ∃ factor, py_float (get_or data key (JFloat float_1)) = Some factor ∧
                 float_eqb factor float_1 = true) ∧
    preview_adjustments (Some data) disk = (Json200 (EditBody preview info), fs') ∧
    ∃ original opened img,
      disk !! original_path (get data "filename") = Some original ∧
      Image_open original = Some opened ∧
      to_rgb opened = Some img ∧
      (mode_in opened ALPHA_MODES = false → img = opened) ∧
      image_to_base64 img = Some preview ∧
      info_width info = img_width img ∧
      info_height info = img_height img.
Proof.
  cbv zeta. eexists _, _.
  apply and_then.
  - intros key Hkey. exists 100.
    repeat (apply elem_of_cons in Hkey as [-> | Hkey]; [by vm_compute |]).
    by apply elem_of_nil in Hkey.
  - intros Hone.
    apply and_then; [apply run_with_reply; vm_compute; reflexivity | intros Hrun].
    exact (preview_identity_sliders _ disk _ _ _ Hone Hrun).
Defined.
